(** * Unmutte backend: intensity heuristic, reply generator and HTTP handlers

    A shallow embedding of [src/main.py] and [src/schemas.py].

    - Python [str] values are sequences of Unicode code points: [list N].
    - Python [float] values that occur here are all of the form [k / 8] with
      [0 <= k <= 17], clamped to [[0, 1]]; such values and the operations
      applied to them (division of a small integer by [8.0], [min], [max],
      comparison) are exact in IEEE binary64, so they are modelled as
      rationals [Q].  The literals [0.7] and [0.8] are not dyadic; they are
      modelled by the exact binary64 values Python reads them as.
    - Python [dict] documents are finite maps from field names to values. *)

From Stdlib Require Import ZArith NArith QArith Qminmax Lia List Bool.
From Stdlib Require Import Strings.String Strings.Ascii DecimalString.
From stdpp Require Import gmap strings list fin_maps.

Import ListNotations.

#[local] Open Scope Z_scope.

(** ** Strings *)

Module PyStr.

(** A code point. *)
Definition codepoint := N.

(** An ASCII literal of the source as a sequence of code points. *)
Definition py (lit : string) : list N :=
  List.map N_of_ascii (list_ascii_of_string lit).

(** [str.lower] on one code point.  Exact on U+0000..U+00FF (the ASCII and
    Latin-1 capitals move up by 32, U+00D7 is the multiplication sign) and on
    the two code points outside ASCII whose lowercase form contains an ASCII
    letter: U+0130 (capital I with dot above, which lowers to "i" followed by
    U+0307) and U+212A (Kelvin sign, which lowers to "k").  Every other code
    point lowers, in Python, to code points outside ASCII and is left as it
    is here: the source only ever searches the lowered text for ASCII
    words, and those searches cannot tell the difference. *)
Definition lower_cp (c : N) : list N :=
  if ((65 <=? c) && (c <=? 90))%N then [(c + 32)%N]
  else if ((192 <=? c) && (c <=? 222) && negb (c =? 215))%N then [(c + 32)%N]
  else if (c =? 304)%N then [105%N; 775%N]
  else if (c =? 8490)%N then [107%N]
  else [c].

(** [s.lower()] *)
Definition lower (s : list N) : list N := flat_map lower_cp s.

(** [t.startswith(p)] *)
Fixpoint startswith (t p : list N) : bool :=
  match p, t with
  | [], _ => true
  | _ :: _, [] => false
  | a :: p', b :: t' => (a =? b)%N && startswith t' p'
  end.

(** [w in t]: [w] is a contiguous substring of [t]. *)
Fixpoint contains (w t : list N) : bool :=
  startswith t w ||
  match t with
  | [] => false
  | _ :: t' => contains w t'
  end.

(** [len(s)] *)
Definition len (s : list N) : Z := Z.of_nat (length s).

(** [s[::-1]] *)
Definition reversed (s : list N) : list N := rev s.

(** Whether [s.encode("utf-8")] succeeds: a Python string may hold
    surrogate code points (U+D800..U+DFFF), and those cannot be encoded. *)
Definition utf8_encodable (s : list N) : bool :=
  forallb (fun c => (c <? 55296) || (57343 <? c))%N s.

(** [o or d] for an optional string: [None] and the empty string are falsy. *)
Definition or_else (o : option (list N)) (d : list N) : list N :=
  match o with
  | Some (c :: s) => c :: s
  | _ => d
  end.

End PyStr.

Import PyStr.

(** ** Intensity heuristic *)

Definition TRIGGER_WORDS : list (list N) :=
  List.map py
    ["hate"; "useless"; "worthless"; "kill"; "die"; "abuse"; "stupid"; "idiot";
     "nobody"; "broken"; "angry"; "rage"]%string.

(** [sum(1 for w in words if w in t)] *)
Fixpoint count_present (words : list (list N)) (t : list N) : Z :=
  match words with
  | [] => 0
  | w :: ws => (if contains w t then 1 else 0) + count_present ws t
  end.

(** The integer score before scaling: the trigger words found plus the
    length bonus. *)
Definition raw_score (text : list N) : Z :=
  let t := lower text in
  let score := count_present TRIGGER_WORDS t in
  score + Z.min 5 (Z.max 0 (len text / 120)).

Definition estimate_intensity (text : list N) : Q :=
  Qmax 0 (Qmin 1 (inject_Z (raw_score text) / 8)).

(** *** The spec's reading of the count: every occurrence counts *)

(** Number of positions of [t] at which [w] occurs (overlaps included). *)
Fixpoint occurrences (w t : list N) : Z :=
  (if startswith t w then 1 else 0) +
  match t with
  | [] => 0
  | _ :: t' => occurrences w t'
  end.

(** Total number of trigger-word occurrences in the lowered text. *)
Fixpoint count_occurrences (words : list (list N)) (t : list N) : Z :=
  match words with
  | [] => 0
  | w :: ws => occurrences w t + count_occurrences ws t
  end.

Definition clamp (x lo hi : Q) : Q := Qmax lo (Qmin hi x).

(** The closed form the specification gives for the score, for a count [k]
    and a length [L]. *)
Definition spec_intensity (k L : Z) : Q :=
  clamp (inject_Z (k + Z.min 5 (L / 120)) / 8) 0 1.

(** ** Reply generator *)

(** U+2019, the apostrophe of the canned sentences, and U+2014, their dash. *)
Definition RSQUO : list N := [8217%N].
Definition MDASH : list N := [8212%N].

Definition SOFT_RESPONSES_EN : list (list N) :=
  [ py "I" ++ RSQUO ++ py "m here, yaar. Say whatever you need. No judgement, only warmth.";
    py "That sounded really heavy. Take your time, I" ++ RSQUO ++ py "m listening.";
    py "You" ++ RSQUO ++ py "re not alone. Main hoon na " ++ MDASH ++ py " I" ++ RSQUO
      ++ py "m right here with you." ].

Definition SOFT_RESPONSES_HI : list (list N) :=
  [ py "Main yahin hoon, yaar. Jo mann mein hai bol do. Koi faisla nahi.";
    py "Ye sab kaafi bhaari lag raha hai. Araam se, main sun raha/rahi hoon.";
    py "Tum akelay nahi ho. Main saath hoon, bilkul paas." ].

(** The two suffixes of [generate_reply]. *)
Definition ADD_BREATHE : list N :=
  py " Thoda sa saans lein " ++ MDASH ++ py " 4 count in, 4 hold, 4 out. Main yahin hoon.".
Definition ADD_MORE : list N := py " Bolo aur, jo dil mein hai.".

(** The float literals [0.7] and [0.8], as the binary64 values they denote. *)
Definition F0_7 : Q := 3152519739159347 # 4503599627370496.
Definition F0_8 : Q := 3602879701896397 # 4503599627370496.

(** [x > y] and [x >= y] on floats. *)
Definition Qgtb (x y : Q) : bool := negb (Qle_bool x y).
Definition Qgeb (x y : Q) : bool := Qle_bool y x.

(** [base[i]] for an index known to be in range. *)
Definition item (base : list (list N)) (i : Z) : list N :=
  nth (Z.to_nat i) base [].

Definition generate_reply (text lang : list N) : list N :=
  let base :=
    if startswith (lower (or_else (Some lang) [])) (py "hi")
    then SOFT_RESPONSES_HI else SOFT_RESPONSES_EN in
  let add :=
    if Qgtb (estimate_intensity text) F0_7 then ADD_BREATHE else ADD_MORE in
  item base (len text mod Z.of_nat (length base)) ++ add.

(** ** Values, documents and request bodies *)

(** The JSON-like values that occur in request bodies and stored documents. *)
Inductive value : Type :=
  | VNone
  | VBool (b : bool)
  | VInt (z : Z)
  | VFloat (q : Q)
  | VStr (s : list N).

(** A Python [dict] with string keys: a document, a filter, a JSON object. *)
Abbreviation document := (gmap string value).

(** A dict literal. *)
Definition dict (fields : list (string * value)) : gmap string value :=
  list_to_map fields.

Definition of_optional_str (o : option (list N)) : value :=
  match o with
  | Some s => VStr s
  | None => VNone
  end.

(** [str(n)] for an integer. *)
Definition str_of_int (n : Z) : list N :=
  py (DecimalString.NilZero.string_of_int (Z.to_int n)).

(** ** Effects: the store adapter, the random source, exceptions *)

(** What a call can do: return a value or raise. *)
Inductive outcome (A : Type) : Type :=
  | Returned (a : A)
  | Raised (e : string).
Arguments Returned {A} a.
Arguments Raised {A} e.

(** The interface [main.py] imports from the [database] module.  Each
    operation acts on the state of the store and returns or raises. *)
Class StoreAdapter (Store : Type) : Type := {
  db_create_document :
    string -> gmap string value -> Store -> outcome (list N) * Store;
  db_get_documents :
    string -> gmap string value -> nat -> Store ->
    outcome (list (gmap string value)) * Store
}.

(** The process-wide generator behind [random.randint]: an arbitrary
    sequence of raw draws and the number of draws already consumed. *)
Record Rng : Type := { draws : nat -> N; drawn : nat }.

(** [randint(a, b)]: an integer of [[a, b]] taken from the next raw draw. *)
Definition next_randint (a b : Z) (g : Rng) : Z * Rng :=
  (a + Z.of_N (draws g (drawn g)) mod (b - a + 1),
   {| draws := draws g; drawn := S (drawn g) |}).

(** HTTP outcome of a route: the handler's value (200), a per-field
    validation failure (422) raised before the handler runs, or an
    unhandled exception (500). *)
Inductive http (A : Type) : Type :=
  | Ok200 (body : A)
  | Unprocessable422 (detail : list (string * string))
  | ServerError500 (e : string).
Arguments Ok200 {A} body.
Arguments Unprocessable422 {A} detail.
Arguments ServerError500 {A} e.

(** *** Request models of [main.py] *)

Module ChatRequest.
Record t : Type := { session_id : list N; text : list N; lang : option (list N) }.
End ChatRequest.

Module ChatResponse.
Record t : Type :=
  { reply : list N; intensity : Q; lang : list N; suggest_break : bool }.
End ChatResponse.

Module NewPost.
Record t : Type := { content : list N }.
End NewPost.

Module NewReply.
Record t : Type := { post_id : list N; content : list N }.
End NewReply.

Module ReportReq.
Record t : Type :=
  { target_type : list N; target_id : list N; reason : option (list N) }.
Definition model_dump (r : t) : gmap string value :=
  dict [("target_type", VStr (target_type r));
        ("target_id", VStr (target_id r));
        ("reason", of_optional_str (reason r))]%string.
End ReportReq.

Module MoodReq.
Record t : Type := { session_id : list N; mood : Z; note : option (list N) }.
Definition model_dump (m : t) : gmap string value :=
  dict [("session_id", VStr (session_id m));
        ("mood", VInt (mood m));
        ("note", of_optional_str (note m))]%string.
End MoodReq.

Module CounselorReq.
Record t : Type := { session_id : list N; topic : option (list N) }.
Definition model_dump (r : t) : gmap string value :=
  dict [("session_id", VStr (session_id r));
        ("topic", of_optional_str (topic r))]%string.
End CounselorReq.

(** *** Body validation

    A field of a JSON body is checked the way its annotation says: a [str]
    field takes a JSON string, an [int] field a JSON integer, an
    [Optional[str]] field a string or null and falls back to its default when
    absent.  Every failing field contributes one error, named by its field.
    (The coercions pydantic applies to other JSON kinds in an [int] field,
    such as a string of digits, are not modelled: bodies are taken with an
    integer where an integer is expected, or with a value of another kind
    that is refused.) *)

Definition field_error := (string * string)%type.

Definition required_str (k : string) (b : gmap string value)
  : field_error + list N :=
  match b !! k with
  | None => inl (k, "missing"%string)
  | Some (VStr s) => inr s
  | Some _ => inl (k, "string_type"%string)
  end.

Definition optional_str (k : string) (dflt : option (list N))
    (b : gmap string value) : field_error + option (list N) :=
  match b !! k with
  | None => inr dflt
  | Some VNone => inr None
  | Some (VStr s) => inr (Some s)
  | Some _ => inl (k, "string_type"%string)
  end.

Definition required_int (k : string) (b : gmap string value)
  : field_error + Z :=
  match b !! k with
  | None => inl (k, "missing"%string)
  | Some (VInt z) => inr z
  | Some _ => inl (k, "int_type"%string)
  end.

(** A [str] field with a default: absent gives the default, null is refused. *)
Definition defaulted_str (k : string) (dflt : list N) (b : gmap string value)
  : field_error + list N :=
  match b !! k with
  | None => inr dflt
  | Some (VStr s) => inr s
  | Some _ => inl (k, "string_type"%string)
  end.

(** [Field(..., ge=lo, le=hi)] on an [int] field. *)
Definition required_int_ge_le (k : string) (lo hi : Z) (b : gmap string value)
  : field_error + Z :=
  match required_int k b with
  | inl e => inl e
  | inr z =>
      if z <? lo then inl (k, "greater_than_equal"%string)
      else if hi <? z then inl (k, "less_than_equal"%string)
      else inr z
  end.

Definition errors_of {A} (r : field_error + A) : list field_error :=
  match r with
  | inl e => [e]
  | inr _ => []
  end.

Definition validate_ChatRequest (b : gmap string value)
  : list field_error + ChatRequest.t :=
  match required_str "session_id" b, required_str "text" b,
        optional_str "lang" (Some (py "en")) b with
  | inr s, inr t, inr l =>
      inr {| ChatRequest.session_id := s; ChatRequest.text := t; ChatRequest.lang := l |}
  | r1, r2, r3 => inl (errors_of r1 ++ errors_of r2 ++ errors_of r3)
  end.

Definition validate_NewPost (b : gmap string value)
  : list field_error + NewPost.t :=
  match required_str "content" b with
  | inr c => inr {| NewPost.content := c |}
  | r1 => inl (errors_of r1)
  end.

Definition validate_NewReply (b : gmap string value)
  : list field_error + NewReply.t :=
  match required_str "post_id" b, required_str "content" b with
  | inr p, inr c => inr {| NewReply.post_id := p; NewReply.content := c |}
  | r1, r2 => inl (errors_of r1 ++ errors_of r2)
  end.

Definition validate_ReportReq (b : gmap string value)
  : list field_error + ReportReq.t :=
  match required_str "target_type" b, required_str "target_id" b,
        optional_str "reason" None b with
  | inr ty, inr ti, inr r =>
      inr {| ReportReq.target_type := ty; ReportReq.target_id := ti;
             ReportReq.reason := r |}
  | r1, r2, r3 => inl (errors_of r1 ++ errors_of r2 ++ errors_of r3)
  end.

Definition validate_MoodReq (b : gmap string value)
  : list field_error + MoodReq.t :=
  match required_str "session_id" b, required_int "mood" b,
        optional_str "note" None b with
  | inr s, inr m, inr n =>
      inr {| MoodReq.session_id := s; MoodReq.mood := m; MoodReq.note := n |}
  | r1, r2, r3 => inl (errors_of r1 ++ errors_of r2 ++ errors_of r3)
  end.

Definition validate_CounselorReq (b : gmap string value)
  : list field_error + CounselorReq.t :=
  match required_str "session_id" b, optional_str "topic" None b with
  | inr s, inr t => inr {| CounselorReq.session_id := s; CounselorReq.topic := t |}
  | r1, r2 => inl (errors_of r1 ++ errors_of r2)
  end.

(** *** Collection schemas of [schemas.py] used by the claims

    [MoodEntry] declares [mood: int = Field(..., ge=1, le=5)];
    [CounselorRequest] declares [status: str = Field("queued")].  No route of
    [main.py] builds or validates either model.  Their optional timestamp
    fields, which carry no constraint, are left out. *)

Module MoodEntry.
Record t : Type := { session_id : list N; mood : Z; note : option (list N) }.
Definition validate (b : gmap string value) : list field_error + t :=
  match required_str "session_id" b, required_int_ge_le "mood" 1 5 b,
        optional_str "note" None b with
  | inr s, inr m, inr n => inr {| session_id := s; mood := m; note := n |}
  | r1, r2, r3 => inl (errors_of r1 ++ errors_of r2 ++ errors_of r3)
  end.
End MoodEntry.

Module CounselorRequest.
Record t : Type :=
  { session_id : list N; topic : option (list N); status : list N }.
Definition validate (b : gmap string value) : list field_error + t :=
  match required_str "session_id" b, optional_str "topic" None b,
        defaulted_str "status" (py "queued") b with
  | inr s, inr tp, inr st =>
      inr {| session_id := s; topic := tp; status := st |}
  | r1, r2, r3 => inl (errors_of r1 ++ errors_of r2 ++ errors_of r3)
  end.
Definition model_dump (r : t) : gmap string value :=
  dict [("session_id", VStr (session_id r));
        ("topic", of_optional_str (topic r));
        ("status", VStr (status r))]%string.
End CounselorRequest.

(** *** The monad of handler code: a world threaded through, exceptions *)

Definition M (W A : Type) : Type := W -> outcome A * W.

Definition ret {W A} (a : A) : M W A := fun w => (Returned a, w).

Definition bind {W A B} (m : M W A) (k : A -> M W B) : M W B :=
  fun w =>
    match m w with
    | (Returned a, w') => k a w'
    | (Raised e, w') => (Raised e, w')
    end.

(** [try: body  except Exception as e: handler] *)
Definition try_except {W A} (body : M W A) (handler : string -> M W A) : M W A :=
  fun w =>
    match body w with
    | (Returned a, w') => (Returned a, w')
    | (Raised e, w') => handler e w'
    end.

Notation "x <- m ;; k" := (bind m (fun x => k))
  (at level 100, m at next level, right associativity).
Notation "m ;;; k" := (bind m (fun _ => k))
  (at level 100, right associativity).

(** ** HTTP handlers *)

Section Handlers.

Context {Store : Type} `{!StoreAdapter Store}.

(** What a request can touch: the store and the random generator. *)
Record World : Type := { store : Store; rng : Rng }.

Definition create_document (collection : string) (fields : gmap string value)
  : M World (list N) :=
  fun w =>
    let (r, s') := db_create_document collection fields (store w) in
    (r, {| store := s'; rng := rng w |}).

Definition get_documents (collection : string) (filter : gmap string value)
    (limit : nat) : M World (list (gmap string value)) :=
  fun w =>
    let (r, s') := db_get_documents collection filter limit (store w) in
    (r, {| store := s'; rng := rng w |}).

Definition randint (a b : Z) : M World Z :=
  fun w =>
    let (n, g) := next_randint a b (rng w) in
    (Returned n, {| store := store w; rng := g |}).

(** A route: the body is validated against the handler's request model,
    then the handler runs; an exception that leaves the handler is a 500. *)
Definition route {Req Resp : Type}
    (validate : gmap string value -> list field_error + Req)
    (handler : Req -> M World Resp) (body : gmap string value)
  : World -> http Resp * World :=
  fun w =>
    match validate body with
    | inl detail => (Unprocessable422 detail, w)
    | inr req =>
        match handler req w with
        | (Returned r, w') => (Ok200 r, w')
        | (Raised e, w') => (ServerError500 e, w')
        end
    end.

(** A route declared with [response_model]: what the handler returns is
    serialised through the model before it is sent, and a value that cannot be
    serialised is a 500 as well, after the handler has run. *)
Definition route_with_response_model {Req Resp : Type}
    (validate : gmap string value -> list field_error + Req)
    (handler : Req -> M World Resp) (serializable : Resp -> bool)
    (body : gmap string value)
  : World -> http Resp * World :=
  fun w =>
    match validate body with
    | inl detail => (Unprocessable422 detail, w)
    | inr req =>
        match handler req w with
        | (Returned r, w') =>
            if serializable r then (Ok200 r, w')
            else (ServerError500 "response serialization", w')
        | (Raised e, w') => (ServerError500 e, w')
        end
    end.

(** A [ChatResponse] can be sent when its two strings can be encoded; the
    float and the boolean always can. *)
Definition ChatResponse_serializable (r : ChatResponse.t) : bool :=
  utf8_encodable (ChatResponse.reply r) && utf8_encodable (ChatResponse.lang r).

(** The two documents [chat] hands to the store. *)
Definition chat_user_document (req : ChatRequest.t) (intensity : Q)
  : gmap string value :=
  dict [("session_id", VStr (ChatRequest.session_id req));
        ("role", VStr (py "user"));
        ("text", VStr []);
        ("ciphertext", VStr (py "enc::" ++ reversed (ChatRequest.text req)));
        ("intensity", VFloat intensity);
        ("lang", of_optional_str (ChatRequest.lang req))]%string.

Definition chat_assistant_document (req : ChatRequest.t) (reply : list N)
    (intensity : Q) : gmap string value :=
  dict [("session_id", VStr (ChatRequest.session_id req));
        ("role", VStr (py "assistant"));
        ("text", VStr []);
        ("ciphertext", VStr (py "enc::" ++ reversed reply));
        ("intensity", VFloat intensity);
        ("lang", of_optional_str (ChatRequest.lang req))]%string.

Definition chat (req : ChatRequest.t) : M World ChatResponse.t :=
  let intensity := estimate_intensity (ChatRequest.text req) in
  let reply :=
    generate_reply (ChatRequest.text req)
                   (or_else (ChatRequest.lang req) (py "en")) in
  let suggest_break := Qgeb intensity F0_8 in
  try_except
    (create_document "message" (chat_user_document req intensity) ;;;
     create_document "message" (chat_assistant_document req reply intensity) ;;;
     ret tt)
    (fun e => ret tt) ;;;
  ret {| ChatResponse.reply := reply;
         ChatResponse.intensity := intensity;
         ChatResponse.lang := or_else (ChatRequest.lang req) (py "en");
         ChatResponse.suggest_break := suggest_break |}.

Definition make_alias : M World (list N) :=
  n <- randint 100 999 ;;
  ret (py "Ally-" ++ str_of_int n).

Definition create_post (data : NewPost.t) : M World (gmap string value) :=
  alias <- make_alias ;;
  seed <- randint 1 9999 ;;
  doc_id <- create_document "post"
    (dict [("alias", VStr alias);
           ("avatar_seed", VStr (str_of_int seed));
           ("content", VStr (NewPost.content data));
           ("status", VStr (py "pending"));
           ("reports", VInt 0)]%string) ;;
  ret (dict [("id", VStr doc_id); ("status", VStr (py "pending"))]%string).

Definition feed : M World (list (gmap string value)) :=
  posts <- get_documents "post"
             (dict [("status", VStr (py "published"))]%string) 50 ;;
  ret posts.

Definition add_reply (data : NewReply.t) : M World (gmap string value) :=
  alias <- make_alias ;;
  doc_id <- create_document "reply"
    (dict [("post_id", VStr (NewReply.post_id data));
           ("alias", VStr alias);
           ("content", VStr (NewReply.content data));
           ("status", VStr (py "pending"))]%string) ;;
  ret (dict [("id", VStr doc_id); ("status", VStr (py "pending"))]%string).

Definition report_item (r : ReportReq.t) : M World (gmap string value) :=
  doc_id <- create_document "report" (ReportReq.model_dump r) ;;
  ret (dict [("id", VStr doc_id); ("queued", VBool true)]%string).

Definition add_mood (m : MoodReq.t) : M World (gmap string value) :=
  doc_id <- create_document "moodentry" (MoodReq.model_dump m) ;;
  ret (dict [("id", VStr doc_id)]%string).

Definition get_mood (session_id : list N) : M World (list (gmap string value)) :=
  items <- get_documents "moodentry"
             (dict [("session_id", VStr session_id)]%string) 100 ;;
  ret items.

Definition request_listener (req : CounselorReq.t) : M World (gmap string value) :=
  doc_id <- create_document "counselorrequest" (CounselorReq.model_dump req) ;;
  ret (dict [("id", VStr doc_id); ("status", VStr (py "queued"))]%string).

(** The routes, as FastAPI wires them. *)
Definition post_api_chat :=
  route_with_response_model validate_ChatRequest chat ChatResponse_serializable.
Definition post_api_community_post := route validate_NewPost create_post.
Definition get_api_community_feed : World -> http (list (gmap string value)) * World :=
  route (fun _ => inr tt) (fun _ => feed) ∅.
Definition post_api_community_reply := route validate_NewReply add_reply.
Definition post_api_community_report := route validate_ReportReq report_item.
Definition post_api_wellness_mood := route validate_MoodReq add_mood.
Definition get_api_wellness_mood (session_id : list N)
  : World -> http (list (gmap string value)) * World :=
  route (fun _ => inr tt) (fun _ => get_mood session_id) ∅.
Definition post_api_premium_request := route validate_CounselorReq request_listener.

End Handlers.

Arguments World Store : clear implicits.

(** ** The document store *)

(** Equality of two values as a field-equality filter sees it. *)
Definition value_eqb (a b : value) : bool :=
  match a, b with
  | VNone, VNone => true
  | VBool x, VBool y => Bool.eqb x y
  | VInt x, VInt y => x =? y
  | VFloat x, VFloat y => Qeq_bool x y
  | VStr x, VStr y => bool_decide (x = y)
  | _, _ => false
  end.

(** A document matches a filter when it carries every field of the filter
    with an equal value. *)
Definition matches (filter doc : gmap string value) : bool :=
  forallb
    (fun kv => match doc !! fst kv with
               | Some v => value_eqb (snd kv) v
               | None => false
               end)
    (map_to_list filter).

Module MemStore.

(** Modelled from the spec: the [database] module, which defines
    [create_document] and [get_documents], is not among the sources.  The
    specification (sections 2, 3 and 6) describes it as a thin adapter over a
    document database: [create_document(collection, fields)] stores the
    fields as one flat document with a server-assigned identifier and
    timestamps and returns the identifier;
    [get_documents(collection, filter, limit)] returns, in order, the
    documents of the collection that match the filter by field equality, at
    most [limit] of them; either call may instead fail ("unavailable" or
    "operation error").  The state below holds the documents in insertion
    order, the next identifier, a clock, and a schedule saying which of the
    coming calls fail. *)
Record t : Type := {
  docs : list (string * gmap string value);
  next_id : N;
  clock : Z;
  faults : list bool
}.

Definition stamp (id : list N) (now : Z) (fields : gmap string value)
  : gmap string value :=
  <["_id" := VStr id]>
    (<["created_at" := VInt now]> (<["updated_at" := VInt now]> fields)).

(** Modelled from the spec: [create_document(collection, fields) -> id].  The
    fields are stored with a fresh identifier and the timestamps, unless the
    call is scheduled to fail. *)
Definition create (collection : string) (fields : gmap string value) (s : t)
  : outcome (list N) * t :=
  match faults s with
  | true :: later =>
      (Raised "store unavailable",
       {| docs := docs s; next_id := next_id s; clock := clock s;
          faults := later |})
  | _ =>
      let id := str_of_int (Z.of_N (next_id s)) in
      (Returned id,
       {| docs := docs s ++ [(collection, stamp id (clock s) fields)];
          next_id := N.succ (next_id s);
          clock := clock s + 1;
          faults := tl (faults s) |})
  end.

(** The documents of one collection that match a filter, in order. *)
Definition select (collection : string) (filter : gmap string value)
    (ds : list (string * gmap string value)) : list (gmap string value) :=
  List.map snd
    (List.filter
       (fun cd => String.eqb (fst cd) collection && matches filter (snd cd)) ds).

(** Modelled from the spec: [get_documents(collection, filter, limit)], the
    first [limit] matching documents of the collection, unless the call is
    scheduled to fail. *)
Definition get (collection : string) (filter : gmap string value)
    (limit : nat) (s : t) : outcome (list (gmap string value)) * t :=
  match faults s with
  | true :: later =>
      (Raised "store unavailable",
       {| docs := docs s; next_id := next_id s; clock := clock s;
          faults := later |})
  | _ =>
      (Returned (firstn limit (select collection filter (docs s))),
       {| docs := docs s; next_id := next_id s; clock := clock s;
          faults := tl (faults s) |})
  end.

(** A moderation decision taken outside this program: the status of the
    document with identifier [id] is overwritten. *)
Definition set_status (id status : list N) (s : t) : t :=
  {| docs :=
       List.map
         (fun cd =>
            if value_eqb (VStr id) (default VNone (snd cd !! "_id"))
            then (fst cd, <["status" := VStr status]> (snd cd))
            else cd)
         (docs s);
     next_id := next_id s; clock := clock s; faults := faults s |}.

Definition empty : t :=
  {| docs := []; next_id := 1; clock := 0; faults := [] |}.

End MemStore.

#[global] Instance mem_store_adapter : StoreAdapter MemStore.t := {|
  db_create_document := MemStore.create;
  db_get_documents := MemStore.get
|}.



(** A random source that always draws the same raw number. *)
Definition constant_rng (n : N) : Rng := {| draws := fun _ => n; drawn := 0 |}.

Definition mem_world (s : MemStore.t) : World MemStore.t :=
  {| store := s; rng := constant_rng 0 |}.

(** ** The diagnostic route [GET /test] *)

(** U+2705, U+274C and U+26A0 U+FE0F: the marks of the status texts. *)
Definition CHECK_MARK : list N := [9989%N].
Definition CROSS_MARK : list N := [10060%N].
Definition WARNING_SIGN : list N := [9888%N; 65039%N].

(** What [db.list_collection_names()] does on a handle: it returns the
    names or raises an exception whose text is [str(e)]. *)
Inductive listing : Type :=
  | Listed (names : list (list N))
  | ListingFailed (message : list N).

(** The response dict of [test_database]. *)
Record DbStatus : Type := {
  backend : list N;
  database : list N;
  database_url : list N;
  database_name : list N;
  connection_status : list N;
  collections : list (list N)
}.

Definition set_database (v : list N) (r : DbStatus) : DbStatus :=
  {| backend := backend r; database := v; database_url := database_url r;
     database_name := database_name r;
     connection_status := connection_status r; collections := collections r |}.

Definition set_connection_status (v : list N) (r : DbStatus) : DbStatus :=
  {| backend := backend r; database := database r;
     database_url := database_url r; database_name := database_name r;
     connection_status := v; collections := collections r |}.

Definition set_collections (v : list (list N)) (r : DbStatus) : DbStatus :=
  {| backend := backend r; database := database r;
     database_url := database_url r; database_name := database_name r;
     connection_status := connection_status r; collections := v |}.

(** Truth value of [os.getenv(name)]: unset and empty are both falsy. *)
Definition getenv_truthy (v : option (list N)) : bool :=
  match v with
  | Some (_ :: _) => true
  | _ => false
  end.

(** [test_database], given the two environment variables and the store
    handle [db] of the [database] module ([None] when it is not initialised).
    The outer [except] of the source guards code that cannot raise, so it has
    no branch here. *)
Definition test_database (env_url env_name : option (list N))
    (db : option listing) : DbStatus :=
  let response :=
    {| backend := CHECK_MARK ++ py " Running";
       database := CROSS_MARK ++ py " Not Available";
       database_url :=
         if getenv_truthy env_url then CHECK_MARK ++ py " Set"
         else CROSS_MARK ++ py " Not Set";
       database_name :=
         if getenv_truthy env_name then CHECK_MARK ++ py " Set"
         else CROSS_MARK ++ py " Not Set";
       connection_status := py "Not Connected";
       collections := [] |} in
  match db with
  | Some handle =>
      let response := set_database (CHECK_MARK ++ py " Connected") response in
      let response := set_connection_status (py "Connected") response in
      match handle with
      | Listed names =>
          let response := set_collections (firstn 10 names) response in
          set_database (CHECK_MARK ++ py " Connected & Working") response
      | ListingFailed message =>
          set_database
            (WARNING_SIGN ++ py " Connected but Error: " ++ firstn 80 message)
            response
      end
  | None =>
      set_database (WARNING_SIGN ++ py " Available but not initialized") response
  end.

(** ** More collection schemas of [schemas.py] *)

(** An [Optional[float]] field with [ge=lo, le=hi] and default [None]: a
    JSON number within the bounds, or null, or absent. *)
Definition optional_float_ge_le (k : string) (lo hi : Q)
    (b : gmap string value) : field_error + option Q :=
  let check (q : Q) :=
    if negb (Qle_bool lo q) then inl (k, "greater_than_equal"%string)
    else if negb (Qle_bool q hi) then inl (k, "less_than_equal"%string)
    else inr (Some q) in
  match b !! k with
  | None => inr None
  | Some VNone => inr None
  | Some (VFloat q) => check q
  | Some (VInt z) => check (inject_Z z)
  | Some _ => inl (k, "float_type"%string)
  end.

(** An [int] field with [ge=lo] and a default. *)
Definition defaulted_int_ge (k : string) (dflt lo : Z) (b : gmap string value)
  : field_error + Z :=
  match b !! k with
  | None => inr dflt
  | Some (VInt z) =>
      if z <? lo then inl (k, "greater_than_equal"%string) else inr z
  | Some _ => inl (k, "int_type"%string)
  end.

Module Message.
Record t : Type := {
  session_id : list N;
  role : list N;
  text : list N;
  ciphertext : option (list N);
  intensity : option Q;
  lang : option (list N)
}.
Definition validate (b : gmap string value) : list field_error + t :=
  match required_str "session_id" b, required_str "role" b,
        required_str "text" b, optional_str "ciphertext" None b,
        optional_float_ge_le "intensity" 0 1 b,
        optional_str "lang" (Some (py "en")) b with
  | inr s, inr r, inr t, inr c, inr i, inr l =>
      inr {| session_id := s; role := r; text := t; ciphertext := c;
             intensity := i; lang := l |}
  | r1, r2, r3, r4, r5, r6 =>
      inl (errors_of r1 ++ errors_of r2 ++ errors_of r3 ++ errors_of r4
           ++ errors_of r5 ++ errors_of r6)
  end.
End Message.

Module Post.
Record t : Type := {
  alias : list N;
  avatar_seed : option (list N);
  content : list N;
  status : list N;
  reports : Z
}.
Definition validate (b : gmap string value) : list field_error + t :=
  match required_str "alias" b, optional_str "avatar_seed" None b,
        required_str "content" b, defaulted_str "status" (py "published") b,
        defaulted_int_ge "reports" 0 0 b with
  | inr a, inr s, inr c, inr st, inr r =>
      inr {| alias := a; avatar_seed := s; content := c; status := st;
             reports := r |}
  | r1, r2, r3, r4, r5 =>
      inl (errors_of r1 ++ errors_of r2 ++ errors_of r3 ++ errors_of r4
           ++ errors_of r5)
  end.
End Post.

(** ** More vocabulary *)

(** A decimal digit, as a code point. *)
Definition is_digit (c : N) : Prop := (48 <= c <= 57)%N.

(** [str(z)] is made of exactly [width] decimal digits. *)
Definition digitsb (width : nat) (z : Z) : bool :=
  (length (str_of_int z) =? width)%nat &&
  forallb (fun c => (48 <=? c)%N && (c <=? 57)%N) (str_of_int z).

Definition one_to_four_digitsb (z : Z) : bool :=
  digitsb 1 z || digitsb 2 z || digitsb 3 z || digitsb 4 z.

(** Reading a stored placeholder back: the five characters of "enc::" are
    dropped and the rest is reversed. *)
Definition read_placeholder (c : list N) : list N := reversed (skipn 5 c).

(** ** Vocabulary of the statements *)

(** [w] is a contiguous substring of [t]. *)
Definition occurs_in (w t : list N) : Prop :=
  exists pre suf, t = pre ++ w ++ suf.

(** The text contains exactly [k] of the trigger words, each counted once
    however often it occurs in the lowered text. *)
Definition words_present (text : list N) (k : nat) : Prop :=
  exists ws,
    List.NoDup ws /\
    (forall w, In w ws <-> In w TRIGGER_WORDS /\ occurs_in w (lower text)) /\
    length ws = k.

(** [lang], lowered, starts with "hi". *)
Definition starts_with_hi (lang : list N) : Prop :=
  exists rest, lower lang = py "hi" ++ rest.

(** The response of [chat], which depends on the request alone. *)
Definition chat_response (req : ChatRequest.t) : ChatResponse.t :=
  {| ChatResponse.reply :=
       generate_reply (ChatRequest.text req)
                      (or_else (ChatRequest.lang req) (py "en"));
     ChatResponse.intensity := estimate_intensity (ChatRequest.text req);
     ChatResponse.lang := or_else (ChatRequest.lang req) (py "en");
     ChatResponse.suggest_break :=
       Qgeb (estimate_intensity (ChatRequest.text req)) F0_8 |}.

(** Every [create_document] call made in this state of the world raises. *)
Definition store_down {Store : Type} `{!StoreAdapter Store} (w : World Store)
  : Prop :=
  forall c d, exists e, fst (db_create_document c d (store w)) = Raised e.

(** Whether the [n]-th coming call of the store is scheduled to fail. *)
Definition fails_at (n : nat) (s : MemStore.t) : bool :=
  nth n (MemStore.faults s) false.

(** A stored message that holds no plaintext: its [text] is empty and its
    [ciphertext] is "enc::" followed by the reversed content. *)
Definition placeholder_for (role content : list N)
    (cd : string * gmap string value) : Prop :=
  fst cd = "message"%string /\
  snd cd !! "role"%string = Some (VStr role) /\
  snd cd !! "text"%string = Some (VStr []) /\
  snd cd !! "ciphertext"%string = Some (VStr (py "enc::" ++ rev content)).

(** ** Sample requests and stores *)

Definition hello_post_body : gmap string value :=
  dict [("content"%string, VStr (py "hello"))].

Definition heavy_chat_body : gmap string value :=
  dict [("session_id"%string, VStr (py "s1"));
        ("text"%string,
         VStr (py "I hate this, useless worthless; kill die abuse stupid"))].

Definition heavy_chat_request : ChatRequest.t :=
  {| ChatRequest.session_id := py "s1";
     ChatRequest.text := py "I hate this, useless worthless; kill die abuse stupid";
     ChatRequest.lang := Some (py "en") |}.

(** A store whose coming calls all fail. *)
Definition down_store : MemStore.t :=
  {| MemStore.docs := []; MemStore.next_id := 1; MemStore.clock := 0;
     MemStore.faults := [true; true] |}.

(** The body [{"session_id": "s1", "mood": z}]. *)
Definition mood_body (z : Z) : gmap string value :=
  dict [("session_id"%string, VStr (py "s1")); ("mood"%string, VInt z)].

Definition counselor_body : gmap string value :=
  dict [("session_id"%string, VStr (py "s1"))].

Definition orphan_reply_body : gmap string value :=
  dict [("post_id"%string, VStr (py "no-such-post"));
        ("content"%string, VStr (py "me too"))].

Definition report_body : gmap string value :=
  dict [("target_type"%string, VStr (py "post"));
        ("target_id"%string, VStr (py "1"))].

(** * Properties *)

Example intensity_empty : estimate_intensity [] == 0.
Proof. vm_compute. reflexivity. Qed.

Example intensity_unbroken : estimate_intensity (py "Unbroken") == 1 # 8.
Proof. vm_compute. reflexivity. Qed.

(** ** Substring search *)

Lemma startswith_spec (t p : list N) :
  startswith t p = true <-> exists suf, t = p ++ suf.
Proof.
  revert t; induction p as [|a p IH]; intros t; simpl.
  - split; [intros _; now exists t | intros _; now destruct t].
  - destruct t as [|b t]; cbn [startswith].
    + split; [discriminate | intros [suf E]; discriminate].
    + rewrite andb_true_iff, N.eqb_eq, IH. split.
      * intros [-> [suf ->]]. now exists suf.
      * intros [suf E]. injection E as -> ->. split; [reflexivity | now exists suf].
Qed.

Lemma contains_spec (w t : list N) : contains w t = true <-> occurs_in w t.
Proof.
  unfold occurs_in. induction t as [|c t IH].
  - cbn [contains]. rewrite orb_false_r, startswith_spec. split.
    + intros [suf E]. now exists [], suf.
    + intros [pre [suf E]]. destruct pre; [now exists suf | discriminate].
  - cbn [contains]. rewrite orb_true_iff, startswith_spec, IH. split.
    + intros [[suf E] | [pre [suf E]]].
      * now exists [], suf.
      * exists (c :: pre), suf. now rewrite E.
    + intros [pre [suf E]]. destruct pre as [|c' pre].
      * left. now exists suf.
      * right. injection E as _ E. now exists pre, suf.
Qed.

Lemma occurrences_nonneg (w t : list N) : 0 <= occurrences w t.
Proof.
  induction t as [|c t IH]; cbn [occurrences]; destruct (startswith _ w); lia.
Qed.

Lemma contains_occurrences (w t : list N) :
  contains w t = true <-> 1 <= occurrences w t.
Proof.
  induction t as [|c t IH]; cbn [contains occurrences].
  - destruct (startswith [] w); simpl; split; (discriminate || lia || reflexivity).
  - pose proof (occurrences_nonneg w t).
    destruct (startswith (c :: t) w); simpl.
    + split; [lia | reflexivity].
    + rewrite IH. lia.
Qed.

(** ** The score *)

Lemma len_nonneg (s : list N) : 0 <= len s.
Proof. unfold len. lia. Qed.

Lemma count_present_filter (ws : list (list N)) (t : list N) :
  count_present ws t =
  Z.of_nat (length (List.filter (fun w => contains w t) ws)).
Proof.
  induction ws as [|w ws IH]; simpl; [reflexivity |].
  rewrite IH. destruct (contains w t); simpl length; lia.
Qed.

Lemma count_present_le_occurrences (ws : list (list N)) (t : list N) :
  count_present ws t <= count_occurrences ws t.
Proof.
  induction ws as [|w ws IH]; simpl; [lia |].
  pose proof (occurrences_nonneg w t).
  destruct (contains w t) eqn:E; [apply contains_occurrences in E |]; lia.
Qed.

Lemma count_present_once (ws : list (list N)) (t : list N) :
  (forall w, In w ws -> occurrences w t <= 1) ->
  count_present ws t = count_occurrences ws t.
Proof.
  induction ws as [|w ws IH]; simpl; intros H; [reflexivity |].
  rewrite IH by (intros; apply H; now right).
  specialize (H w (or_introl eq_refl)).
  pose proof (occurrences_nonneg w t).
  destruct (contains w t) eqn:E.
  - apply contains_occurrences in E. lia.
  - enough (~ 1 <= occurrences w t) by lia.
    rewrite <- contains_occurrences, E. discriminate.
Qed.

Lemma TRIGGER_WORDS_NoDup : List.NoDup TRIGGER_WORDS.
Proof.
  unfold TRIGGER_WORDS.
  repeat (constructor; [vm_compute; intuition discriminate |]). constructor.
Qed.

Lemma words_present_count (text : list N) (k : nat) :
  words_present text k <->
  count_present TRIGGER_WORDS (lower text) = Z.of_nat k.
Proof.
  rewrite count_present_filter.
  set (found := List.filter (fun w => contains w (lower text)) TRIGGER_WORDS).
  assert (Hfound : forall w,
             In w found <-> In w TRIGGER_WORDS /\ occurs_in w (lower text)).
  { intros w. unfold found. rewrite filter_In, contains_spec. reflexivity. }
  assert (Hnd : List.NoDup found) by (apply List.NoDup_filter, TRIGGER_WORDS_NoDup).
  split.
  - intros (ws & Hws & Hin & <-). f_equal.
    apply Permutation.Permutation_length, Permutation.NoDup_Permutation;
      [assumption .. |].
    intros w. now rewrite Hfound, Hin.
  - intros E. exists found.
    split; [assumption |]. split; [exact Hfound |]. now apply Nat2Z.inj.
Qed.

Lemma raw_score_split (text : list N) :
  raw_score text =
  count_present TRIGGER_WORDS (lower text) + Z.min 5 (len text / 120).
Proof.
  unfold raw_score. cbv zeta. f_equal. f_equal.
  apply Z.max_r, Z.div_pos; [apply len_nonneg | lia].
Qed.

Lemma raw_score_range (text : list N) : 0 <= raw_score text <= 17.
Proof.
  rewrite raw_score_split, count_present_filter.
  pose proof (List.filter_length_le (fun w => contains w (lower text)) TRIGGER_WORDS) as Hle.
  change (length TRIGGER_WORDS) with 12%nat in Hle.
  pose proof (Z.div_pos (len text) 120 (len_nonneg text) ltac:(lia)).
  lia.
Qed.

Lemma estimate_intensity_spec (text : list N) :
  estimate_intensity text ==
  spec_intensity (count_present TRIGGER_WORDS (lower text)) (len text).
Proof.
  unfold estimate_intensity, spec_intensity, clamp.
  rewrite raw_score_split. reflexivity.
Qed.

(** The score as a fraction: [raw_score / 8] below 8, otherwise [1]. *)
Lemma estimate_intensity_cases (text : list N) :
  (raw_score text <= 8 /\ estimate_intensity text == raw_score text # 8) \/
  (8 <= raw_score text /\ estimate_intensity text == 1).
Proof.
  pose proof (raw_score_range text) as [Hlo Hhi].
  unfold estimate_intensity.
  assert (E : inject_Z (raw_score text) / 8 == raw_score text # 8).
  { unfold Qeq, Qdiv, Qmult, Qinv, inject_Z; simpl. lia. }
  rewrite E.
  destruct (Z_le_gt_dec (raw_score text) 8) as [H | H].
  - left. split; [assumption |].
    rewrite Q.min_r by (unfold Qle; simpl; lia).
    apply Q.max_r. unfold Qle; simpl; lia.
  - right. split; [lia |].
    rewrite Q.min_l by (unfold Qle; simpl; lia).
    apply Q.max_r. unfold Qle; simpl; lia.
Qed.

Lemma estimate_intensity_bounded (text : list N) :
  (0 <= estimate_intensity text <= 1)%Q.
Proof.
  pose proof (raw_score_range text) as Hr.
  destruct (estimate_intensity_cases text) as [[H E] | [H E]]; rewrite E;
    unfold Qle; simpl; lia.
Qed.

Lemma spec_intensity_monotone (k1 k2 L1 L2 : Z) :
  k1 <= k2 -> L1 <= L2 -> (spec_intensity k1 L1 <= spec_intensity k2 L2)%Q.
Proof.
  intros Hk HL. unfold spec_intensity, clamp.
  apply Q.max_le_compat_l, Q.min_le_compat_l.
  unfold Qdiv. apply Qmult_le_compat_r; [| discriminate].
  rewrite <- Zle_Qle. apply Z.add_le_mono; [assumption |].
  apply Z.min_le_compat_l, Z.div_le_mono; lia.
Qed.

(** ** The thresholds [0.7] and [0.8]

    On the values the score can take, comparing with the binary64 literals
    and comparing with the exact decimals agree: both put the cut between
    [5/8] and [6/8], respectively between [6/8] and [7/8]. *)

Lemma above_0_7_iff (text : list N) :
  Qgtb (estimate_intensity text) F0_7 = true <-> 6 <= raw_score text.
Proof.
  unfold Qgtb. rewrite negb_true_iff, <- not_true_iff_false, Qle_bool_iff.
  pose proof (raw_score_range text) as Hr.
  destruct (estimate_intensity_cases text) as [[H E] | [H E]]; rewrite E;
    unfold F0_7, Qle; simpl; lia.
Qed.

Lemma above_0_7_exact (text : list N) :
  Qgtb (estimate_intensity text) F0_7 = true <-> (7 # 10 < estimate_intensity text)%Q.
Proof.
  rewrite above_0_7_iff.
  pose proof (raw_score_range text) as Hr.
  destruct (estimate_intensity_cases text) as [[H E] | [H E]]; rewrite E;
    unfold Qlt; simpl; lia.
Qed.

Lemma at_least_0_8_iff (text : list N) :
  Qgeb (estimate_intensity text) F0_8 = true <-> 7 <= raw_score text.
Proof.
  unfold Qgeb. rewrite Qle_bool_iff.
  pose proof (raw_score_range text) as Hr.
  destruct (estimate_intensity_cases text) as [[H E] | [H E]]; rewrite E;
    unfold F0_8, Qle; simpl; lia.
Qed.

Lemma at_least_0_8_exact (text : list N) :
  Qgeb (estimate_intensity text) F0_8 = true <-> (8 # 10 <= estimate_intensity text)%Q.
Proof.
  rewrite at_least_0_8_iff.
  pose proof (raw_score_range text) as Hr.
  destruct (estimate_intensity_cases text) as [[H E] | [H E]]; rewrite E;
    unfold Qle; simpl; lia.
Qed.

(** ** Claims on the intensity heuristic *)

(** C2, as amended.  For a text of length [L] that contains exactly [k] of
    the trigger words (case-insensitive substring match; a word counts once,
    however many times it occurs), [estimate_intensity] is
    [clamp((k + min(5, L // 120)) / 8, 0, 1)]; and the empty text scores
    [0.0]. *)
Theorem estimate_intensity_closed_form (text : list N) (k : nat) :
  words_present text k ->
  estimate_intensity text == spec_intensity (Z.of_nat k) (len text) /\
  estimate_intensity [] == 0.
Proof.
  intros Hk. apply words_present_count in Hk. split.
  - rewrite <- Hk. apply estimate_intensity_spec.
  - vm_compute. reflexivity.
Qed.

Lemma estimate_intensity_closed_form_witness :
  words_present (py "hatehate") 1 /\
  estimate_intensity (py "hatehate") == spec_intensity 1 (len (py "hatehate")) /\
  estimate_intensity [] == 0.
Proof.
  assert (H : words_present (py "hatehate") 1)
    by (apply words_present_count; vm_compute; reflexivity).
  split; [exact H | exact (estimate_intensity_closed_form (py "hatehate") 1 H)].
Defined.

(** C2 as stated fails: "hatehate" has two occurrences of a trigger word and
    length 8, so the stated formula gives [2/8], while the code gives [1/8]. *)
Lemma estimate_intensity_per_occurrence_fails :
  count_occurrences TRIGGER_WORDS (lower (py "hatehate")) = 2 /\
  estimate_intensity (py "hatehate") == 1 # 8 /\
  ~ estimate_intensity (py "hatehate") == spec_intensity 2 (len (py "hatehate")).
Proof.
  split; [vm_compute; reflexivity |].
  split; [vm_compute; reflexivity |].
  vm_compute. discriminate.
Qed.

(** C9, as amended.  [estimate_intensity] is monotonic non-decreasing in the
    number of distinct trigger words present and in the length of the text: a
    text with at least as many of the words and at least the length scores at
    least as much (so in particular with either of the two held fixed). *)
Theorem estimate_intensity_monotone (t1 t2 : list N) (k1 k2 : nat) :
  words_present t1 k1 -> words_present t2 k2 ->
  (k1 <= k2)%nat -> len t1 <= len t2 ->
  (estimate_intensity t1 <= estimate_intensity t2)%Q.
Proof.
  intros H1 H2 Hk HL.
  apply words_present_count in H1, H2.
  rewrite (estimate_intensity_spec t1), (estimate_intensity_spec t2), H1, H2.
  apply spec_intensity_monotone; lia.
Qed.

Lemma estimate_intensity_monotone_witness :
  words_present (py "hatehate") 1 /\ words_present (py "hatekill") 2 /\
  (estimate_intensity (py "hatehate") <= estimate_intensity (py "hatekill"))%Q.
Proof.
  assert (H1 : words_present (py "hatehate") 1)
    by (apply words_present_count; vm_compute; reflexivity).
  assert (H2 : words_present (py "hatekill") 2)
    by (apply words_present_count; vm_compute; reflexivity).
  split; [exact H1 |]. split; [exact H2 |].
  apply (estimate_intensity_monotone (py "hatehate") (py "hatekill") 1 2 H1 H2).
  - lia.
  - vm_compute. discriminate.
Defined.

(** C9 as stated fails when the count is the number of occurrences.  With
    the length fixed: "hatekill" and "hatehate" both have length 8 and two
    occurrences, yet the first scores [2/8] and the second [1/8].  With the
    occurrence count fixed: "hatehate!" is longer than "hatekill", has the
    same two occurrences, and scores less. *)
Lemma estimate_intensity_occurrences_not_monotone :
  (len (py "hatekill") = len (py "hatehate") /\
   count_occurrences TRIGGER_WORDS (lower (py "hatekill"))
     <= count_occurrences TRIGGER_WORDS (lower (py "hatehate")) /\
   ~ (estimate_intensity (py "hatekill") <= estimate_intensity (py "hatehate"))%Q) /\
  (count_occurrences TRIGGER_WORDS (lower (py "hatekill"))
     = count_occurrences TRIGGER_WORDS (lower (py "hatehate!")) /\
   len (py "hatekill") <= len (py "hatehate!") /\
   ~ (estimate_intensity (py "hatekill") <= estimate_intensity (py "hatehate!"))%Q).
Proof.
  repeat split; try (vm_compute; (reflexivity || discriminate)).
  - intros H. vm_compute in H. apply H. reflexivity.
  - intros H. vm_compute in H. apply H. reflexivity.
Qed.

(** ** Claims on the reply generator *)

Lemma or_else_some_nil (s : list N) : or_else (Some s) [] = s.
Proof. now destruct s. Qed.

Lemma item_in_range (base : list (list N)) (n : nat) :
  (n < length base)%nat -> nth_error base n = Some (nth n base []).
Proof. intros H. now apply nth_error_nth'. Qed.

Lemma sentence_index (text : list N) : (Z.to_nat (len text mod 3) < 3)%nat.
Proof. pose proof (Z.mod_pos_bound (len text) 3 ltac:(lia)). lia. Qed.

Example lang_hi_IN : starts_with_hi (py "HI-in").
Proof. now exists (py "-in"). Qed.

Example lang_en : ~ starts_with_hi (py "en").
Proof. intros [rest E]. discriminate E. Qed.

(** C6.  [generate_reply] takes its base sentence from the Hindi-influenced
    set exactly when [lang], lowered, starts with "hi", and from the English
    set otherwise; the sentence is the one at index [len(text) mod 3] of that
    set, so texts of equal length get the same base sentence; the suffix is
    the breathing exercise when the intensity of the text exceeds 0.7 and the
    invitation to go on otherwise. *)
Theorem generate_reply_selection (text lang : list N) :
  exists base add,
    generate_reply text lang = base ++ add /\
    (starts_with_hi lang /\
       nth_error SOFT_RESPONSES_HI (Z.to_nat (len text mod 3)) = Some base \/
     ~ starts_with_hi lang /\
       nth_error SOFT_RESPONSES_EN (Z.to_nat (len text mod 3)) = Some base) /\
    ((7 # 10 < estimate_intensity text)%Q /\ add = ADD_BREATHE \/
     (estimate_intensity text <= 7 # 10)%Q /\ add = ADD_MORE) /\
    (forall text', len text' = len text ->
       exists add', generate_reply text' lang = base ++ add').
Proof.
  unfold generate_reply. rewrite or_else_some_nil.
  pose proof (sentence_index text) as Hi.
  destruct (startswith (lower lang) (py "hi")) eqn:Hhi.
  - exists (item SOFT_RESPONSES_HI (len text mod 3)). eexists.
    split; [reflexivity |]. split; [| split].
    + left. split; [unfold starts_with_hi; now apply startswith_spec |].
      now apply item_in_range.
    + destruct (Qgtb (estimate_intensity text) F0_7) eqn:Hgt.
      * left. split; [now apply above_0_7_exact | reflexivity].
      * right. split; [| reflexivity].
        apply Qnot_lt_le. rewrite <- above_0_7_exact, Hgt. discriminate.
    + intros text' ->. eexists. reflexivity.
  - exists (item SOFT_RESPONSES_EN (len text mod 3)). eexists.
    split; [reflexivity |]. split; [| split].
    + right. split; [| now apply item_in_range].
      unfold starts_with_hi. rewrite <- startswith_spec, Hhi. discriminate.
    + destruct (Qgtb (estimate_intensity text) F0_7) eqn:Hgt.
      * left. split; [now apply above_0_7_exact | reflexivity].
      * right. split; [| reflexivity].
        apply Qnot_lt_le. rewrite <- above_0_7_exact, Hgt. discriminate.
    + intros text' ->. eexists. reflexivity.
Qed.

(** ** Claims on the chat route *)

Lemma suggest_break_reply (req : ChatRequest.t) :
  ChatResponse.suggest_break (chat_response req) = true ->
  exists base, ChatResponse.reply (chat_response req) = base ++ ADD_BREATHE.
Proof.
  cbn [chat_response ChatResponse.suggest_break ChatResponse.reply].
  intros H. apply at_least_0_8_iff in H.
  assert (G : Qgtb (estimate_intensity (ChatRequest.text req)) F0_7 = true)
    by (apply above_0_7_iff; lia).
  unfold generate_reply. rewrite G. eexists. reflexivity.
Qed.

(** The canned replies can always be encoded. *)
Lemma generate_reply_encodable (text lang : list N) :
  utf8_encodable (generate_reply text lang) = true.
Proof.
  unfold generate_reply.
  pose proof (sentence_index text) as Hi.
  destruct (startswith _ (py "hi"));
    destruct (Qgtb _ F0_7);
    match goal with
    | |- context [Z.of_nat (length ?base)] =>
        change (Z.of_nat (length base)) with 3
    end;
    unfold item;
    destruct (Z.to_nat (len text mod 3)) as [| [| [| n]]];
    try (vm_compute; reflexivity); lia.
Qed.

Lemma chat_response_serializable (req : ChatRequest.t) :
  ChatResponse_serializable (chat_response req)
  = utf8_encodable (or_else (ChatRequest.lang req) (py "en")).
Proof.
  unfold ChatResponse_serializable.
  cbn [chat_response ChatResponse.reply ChatResponse.lang].
  now rewrite generate_reply_encodable.
Qed.

Section HandlerFacts.

Context {Store : Type} `{!StoreAdapter Store}.

(** Whatever the store does, [chat] returns, and returns [chat_response]. *)
Lemma chat_returns (req : ChatRequest.t) (w : World Store) :
  exists w', chat req w = (Returned (chat_response req), w').
Proof.
  unfold chat, bind, try_except, create_document, ret. cbv zeta.
  destruct (db_create_document "message" _ (store w)) as [[id1 | e1] s1];
    cbn [store rng]; [| eexists; reflexivity].
  destruct (db_create_document "message" _ s1) as [[id2 | e2] s2];
    eexists; reflexivity.
Qed.

Lemma post_api_chat_valid (body : gmap string value) (req : ChatRequest.t)
    (w : World Store) :
  validate_ChatRequest body = inr req ->
  utf8_encodable (or_else (ChatRequest.lang req) (py "en")) = true ->
  exists w', post_api_chat body w = (Ok200 (chat_response req), w').
Proof.
  intros V U. unfold post_api_chat, route_with_response_model. rewrite V.
  destruct (chat_returns req w) as [w' ->].
  rewrite chat_response_serializable, U. now exists w'.
Qed.


Lemma post_api_chat_ok (body : gmap string value) (w w' : World Store)
    (resp : ChatResponse.t) :
  post_api_chat body w = (Ok200 resp, w') ->
  exists req, validate_ChatRequest body = inr req /\ resp = chat_response req.
Proof.
  unfold post_api_chat, route_with_response_model.
  destruct (validate_ChatRequest body) as [detail | req]; [discriminate |].
  destruct (chat_returns req w) as [w1 ->].
  destruct (ChatResponse_serializable (chat_response req)); [| discriminate].
  intros E. injection E as <- _. now exists req.
Qed.

(** What [POST /api/chat] answers is the same in every world. *)
Lemma post_api_chat_same_answer (body : gmap string value)
    (w1 w1' w2 : World Store) (resp : ChatResponse.t) :
  post_api_chat body w1 = (Ok200 resp, w1') ->
  exists w2', post_api_chat body w2 = (Ok200 resp, w2').
Proof.
  unfold post_api_chat, route_with_response_model.
  destruct (validate_ChatRequest body) as [detail | req]; [discriminate |].
  destruct (chat_returns req w1) as [u1 ->].
  destruct (chat_returns req w2) as [u2 ->].
  destruct (ChatResponse_serializable (chat_response req)); [| discriminate].
  intros E. injection E as <- _. now exists u2.
Qed.

(** When [create_document] raises, a handler that calls it outside any
    [try] raises too. *)
Lemma create_document_raises (c : string) (d : gmap string value)
    (w : World Store) (e : string) :
  fst (db_create_document c d (store w)) = Raised e ->
  exists w', create_document c d w = (Raised e, w').
Proof.
  unfold create_document.
  destruct (db_create_document c d (store w)) as [r s']. simpl.
  intros ->. eexists. reflexivity.
Qed.

Lemma create_post_raises (data : NewPost.t) (w : World Store) :
  store_down w -> exists e w', create_post data w = (Raised e, w').
Proof.
  intros Hdown. unfold create_post, make_alias, bind, randint, ret. simpl.
  match goal with
  | |- context [create_document ?c ?d ?w0] =>
      destruct (Hdown c d) as [e He];
      destruct (create_document_raises c d w0 e He) as [w' ->]
  end.
  now exists e, w'.
Qed.

Lemma add_reply_raises (data : NewReply.t) (w : World Store) :
  store_down w -> exists e w', add_reply data w = (Raised e, w').
Proof.
  intros Hdown. unfold add_reply, make_alias, bind, randint, ret. simpl.
  match goal with
  | |- context [create_document ?c ?d ?w0] =>
      destruct (Hdown c d) as [e He];
      destruct (create_document_raises c d w0 e He) as [w' ->]
  end.
  now exists e, w'.
Qed.

Lemma direct_create_raises {A : Type} (c : string) (d : gmap string value)
    (k : list N -> M (World Store) A) (w : World Store) :
  store_down w ->
  exists e w', (doc_id <- create_document c d ;; k doc_id) w = (Raised e, w').
Proof.
  intros Hdown. unfold bind.
  destruct (Hdown c d) as [e He].
  destruct (create_document_raises c d w e He) as [w' ->].
  now exists e, w'.
Qed.

Lemma route_raises {Req Resp : Type}
    (validate : gmap string value -> list field_error + Req)
    (handler : Req -> M (World Store) Resp) (body : gmap string value)
    (req : Req) (w : World Store) :
  validate body = inr req ->
  (exists e w', handler req w = (Raised e, w')) ->
  exists e w', route validate handler body w = (ServerError500 e, w').
Proof.
  intros V (e & w' & E). unfold route. rewrite V, E. now exists e, w'.
Qed.

(** C3.  When the store adapter raises on the persistence calls,
    [POST /api/chat] still answers 200 with the reply, intensity, language
    and break suggestion computed from the request: every request that is
    answered 200 in some state of the world is answered 200, with the same
    response, when the store is down, and that is every valid body whose
    language can be echoed (one with a surrogate code point cannot be sent and
    is a 500 with or without a working store).  Each of the other routes that
    write to the store ([/api/community/post], [/api/community/reply],
    [/api/community/report], [/api/wellness/mood], [/api/premium/request])
    fails the request (500) on a valid body. *)
Theorem store_failure_policy (w : World Store) :
  store_down w ->
  (forall body req,
     validate_ChatRequest body = inr req ->
     utf8_encodable (or_else (ChatRequest.lang req) (py "en")) = true ->
     exists w', post_api_chat body w = (Ok200 (chat_response req), w')) /\
  (forall body (w2 w2' : World Store) resp,
     post_api_chat body w2 = (Ok200 resp, w2') ->
     exists w', post_api_chat body w = (Ok200 resp, w')) /\
  (forall body data, validate_NewPost body = inr data ->
     exists e w', post_api_community_post body w = (ServerError500 e, w')) /\
  (forall body data, validate_NewReply body = inr data ->
     exists e w', post_api_community_reply body w = (ServerError500 e, w')) /\
  (forall body r, validate_ReportReq body = inr r ->
     exists e w', post_api_community_report body w = (ServerError500 e, w')) /\
  (forall body m, validate_MoodReq body = inr m ->
     exists e w', post_api_wellness_mood body w = (ServerError500 e, w')) /\
  (forall body req, validate_CounselorReq body = inr req ->
     exists e w', post_api_premium_request body w = (ServerError500 e, w')).
Proof.
  intros Hdown. repeat split.
  - intros body req V U. now apply post_api_chat_valid.
  - intros body w2 w2' resp E. exact (post_api_chat_same_answer _ _ _ _ _ E).
  - intros body data V. apply (route_raises _ _ _ data); [assumption |].
    now apply create_post_raises.
  - intros body data V. apply (route_raises _ _ _ data); [assumption |].
    now apply add_reply_raises.
  - intros body r V. apply (route_raises _ _ _ r); [assumption |].
    now apply direct_create_raises.
  - intros body m V. apply (route_raises _ _ _ m); [assumption |].
    now apply direct_create_raises.
  - intros body req V. apply (route_raises _ _ _ req); [assumption |].
    now apply direct_create_raises.
Qed.

(** C8.  In every response of [POST /api/chat], [suggest_break] is true
    exactly when the returned intensity is at least 0.8. *)
Theorem suggest_break_iff_intensity (body : gmap string value)
    (w w' : World Store) (resp : ChatResponse.t) :
  post_api_chat body w = (Ok200 resp, w') ->
  ChatResponse.suggest_break resp = true <->
  (8 # 10 <= ChatResponse.intensity resp)%Q.
Proof.
  intros E. apply post_api_chat_ok in E as (req & _ & ->).
  apply at_least_0_8_exact.
Qed.

(** C10.  In every response of [POST /api/chat] whose [suggest_break] is
    true, the reply ends with the breathing-exercise suffix. *)
Theorem suggest_break_implies_breathing (body : gmap string value)
    (w w' : World Store) (resp : ChatResponse.t) :
  post_api_chat body w = (Ok200 resp, w') ->
  ChatResponse.suggest_break resp = true ->
  exists base, ChatResponse.reply resp = base ++ ADD_BREATHE.
Proof.
  intros E. apply post_api_chat_ok in E as (req & _ & ->).
  apply suggest_break_reply.
Qed.

End HandlerFacts.

(** ** The store model at work *)

Lemma mem_create_cases (c : string) (d : gmap string value)
    (w : World MemStore.t) :
  (fails_at 0 (store w) = true /\
   exists e w', create_document c d w = (Raised e, w') /\
     MemStore.docs (store w') = MemStore.docs (store w)) \/
  (fails_at 0 (store w) = false /\
   exists id w', create_document c d w = (Returned id, w') /\
     MemStore.docs (store w') =
       MemStore.docs (store w) ++ [(c, MemStore.stamp id (MemStore.clock (store w)) d)] /\
     (forall n, fails_at n (store w') = fails_at (S n) (store w))).
Proof.
  unfold create_document, fails_at. cbn [db_create_document mem_store_adapter].
  unfold MemStore.create.
  destruct (MemStore.faults (store w)) as [| [] later] eqn:F; cbn [nth].
  - right. split; [reflexivity |]. eexists; eexists.
    split; [reflexivity |]. split; [reflexivity |].
    intros n. cbn. now destruct n.
  - left. split; [reflexivity |]. eexists; eexists. split; reflexivity.
  - right. split; [reflexivity |]. eexists; eexists.
    split; [reflexivity |]. split; reflexivity.
Qed.

Lemma stamp_lookup (id : list N) (now : Z) (fields : gmap string value)
    (k : string) :
  k <> "_id"%string -> k <> "created_at"%string -> k <> "updated_at"%string ->
  MemStore.stamp id now fields !! k = fields !! k.
Proof.
  intros H1 H2 H3. unfold MemStore.stamp.
  rewrite !lookup_insert_ne by congruence. reflexivity.
Qed.

Lemma stamp_lookup_id (id : list N) (now : Z) (fields : gmap string value) :
  MemStore.stamp id now fields !! "_id"%string = Some (VStr id).
Proof. unfold MemStore.stamp. apply lookup_insert_eq. Qed.

Lemma user_document_placeholder (req : ChatRequest.t) (q : Q) (id : list N)
    (now : Z) :
  placeholder_for (py "user") (ChatRequest.text req)
    ("message"%string, MemStore.stamp id now (chat_user_document req q)).
Proof.
  unfold placeholder_for; cbn [fst snd].
  rewrite !stamp_lookup by discriminate.
  repeat split; reflexivity.
Qed.

Lemma assistant_document_placeholder (req : ChatRequest.t) (reply : list N)
    (q : Q) (id : list N) (now : Z) :
  placeholder_for (py "assistant") reply
    ("message"%string, MemStore.stamp id now (chat_assistant_document req reply q)).
Proof.
  unfold placeholder_for; cbn [fst snd].
  rewrite !stamp_lookup by discriminate.
  repeat split; reflexivity.
Qed.

(** C5.  [chat] adds to the store only message documents that hold a
    placeholder, never the plaintext: the document of the user turn first,
    then the one of the assistant turn, each with an empty [text] and with
    "enc::" followed by the reversed content as [ciphertext].  When the store
    accepts the two writes, exactly these two documents are added. *)
Theorem chat_persists_placeholders (req : ChatRequest.t) (w : World MemStore.t) :
  exists added,
    MemStore.docs (store (snd (chat req w))) = MemStore.docs (store w) ++ added /\
    (added = [] \/
     (exists u, added = [u] /\
        placeholder_for (py "user") (ChatRequest.text req) u) \/
     (exists u a, added = [u; a] /\
        placeholder_for (py "user") (ChatRequest.text req) u /\
        placeholder_for (py "assistant") (ChatResponse.reply (chat_response req)) a)) /\
    (fails_at 0 (store w) = false -> fails_at 1 (store w) = false ->
     length added = 2%nat).
Proof.
  unfold chat, bind, try_except, ret. cbv zeta.
  match goal with
  | |- context [create_document ?c ?d w] =>
      destruct (mem_create_cases c d w)
        as [(F0 & e & w1 & E1 & D1) | (F0 & id1 & w1 & E1 & D1 & Fs)];
      rewrite E1
  end.
  - cbn [snd]. exists []. rewrite D1, app_nil_r.
    split; [reflexivity |]. split; [now left | congruence].
  - match goal with
    | |- context [create_document ?c ?d w1] =>
        destruct (mem_create_cases c d w1)
          as [(F1 & e & w2 & E2 & D2) | (F1 & id2 & w2 & E2 & D2 & _)];
        rewrite E2
    end.
    + cbn [snd]. eexists. rewrite D2, D1.
      split; [reflexivity |]. split.
      * right; left. eexists. split; [reflexivity |].
        apply user_document_placeholder.
      * rewrite <- Fs. congruence.
    + cbn [snd]. eexists. rewrite D2, D1, <- app_assoc.
      split; [reflexivity |]. split; [| reflexivity].
      right; right. eexists; eexists. split; [reflexivity |].
      split; [apply user_document_placeholder |].
      apply assistant_document_placeholder.
Qed.

(** ** Claims on the community feed *)

Lemma value_eqb_str (s : list N) (v : value) :
  value_eqb (VStr s) v = true -> v = VStr s.
Proof.
  destruct v; simpl; try discriminate.
  intros H. apply bool_decide_eq_true in H. now subst.
Qed.

Lemma matches_single (k : string) (s : list N) (p : gmap string value) :
  matches (dict [(k, VStr s)]) p = true -> p !! k = Some (VStr s).
Proof.
  unfold matches, dict. cbn [list_to_map foldr].
  rewrite insert_empty, map_to_list_singleton. cbn [forallb fst snd uncurry].
  destruct (p !! k) as [v |]; [| discriminate].
  rewrite andb_true_r. intros H. now rewrite (value_eqb_str _ _ H).
Qed.

Lemma select_In (c : string) (f p : gmap string value)
    (ds : list (string * gmap string value)) :
  In p (MemStore.select c f ds) -> In (c, p) ds /\ matches f p = true.
Proof.
  unfold MemStore.select. rewrite in_map_iff.
  intros [[c' p'] [E H]]. cbn in E. subst p'.
  apply filter_In in H as [H1 H2]. cbn in H2.
  apply andb_true_iff in H2 as [Hc Hm]. apply String.eqb_eq in Hc.
  now subst c'.
Qed.

Lemma firstn_In {A : Type} (n : nat) (l : list A) (x : A) :
  In x (firstn n l) -> In x l.
Proof.
  intros H. rewrite <- (firstn_skipn n l). apply in_or_app. now left.
Qed.

Lemma mem_get_returned (c : string) (f : gmap string value) (limit : nat)
    (w w' : World MemStore.t) (items : list (gmap string value)) :
  get_documents c f limit w = (Returned items, w') ->
  items = firstn limit (MemStore.select c f (MemStore.docs (store w))).
Proof.
  unfold get_documents. cbn [db_get_documents mem_store_adapter].
  unfold MemStore.get.
  destruct (MemStore.faults (store w)) as [| [] later]; intros E;
    (discriminate E || (injection E as <- _; reflexivity)).
Qed.

Lemma feed_items (w w' : World MemStore.t) (items : list (gmap string value)) :
  get_api_community_feed w = (Ok200 items, w') ->
  items =
    firstn 50
      (MemStore.select "post" (dict [("status"%string, VStr (py "published"))])
         (MemStore.docs (store w))).
Proof.
  unfold get_api_community_feed, route, feed, bind, ret.
  destruct (get_documents _ _ _ w) as [[posts | e] w1] eqn:G; [| discriminate].
  intros E. injection E as <- _. now apply mem_get_returned in G.
Qed.

Lemma feed_only_published (w w' : World MemStore.t)
    (items : list (gmap string value)) :
  get_api_community_feed w = (Ok200 items, w') ->
  (length items <= 50)%nat /\
  forall p, In p items ->
    In ("post"%string, p) (MemStore.docs (store w)) /\
    p !! "status"%string = Some (VStr (py "published")).
Proof.
  intros E. apply feed_items in E. subst items. split.
  - rewrite length_firstn. lia.
  - intros p H. apply firstn_In, select_In in H as [H1 H2].
    split; [assumption | now apply matches_single].
Qed.

Lemma create_post_stored (body r : gmap string value) (w w1 : World MemStore.t) :
  post_api_community_post body w = (Ok200 r, w1) ->
  exists id d,
    r = dict [("id"%string, VStr id); ("status"%string, VStr (py "pending"))] /\
    MemStore.docs (store w1) = MemStore.docs (store w) ++ [("post"%string, d)] /\
    d !! "status"%string = Some (VStr (py "pending")) /\
    d !! "_id"%string = Some (VStr id).
Proof.
  unfold post_api_community_post, route.
  destruct (validate_NewPost body) as [detail | data]; [discriminate |].
  unfold create_post, make_alias, bind, randint, ret, next_randint.
  cbv beta iota zeta.
  match goal with
  | |- context [create_document ?c ?d ?w0] =>
      destruct (mem_create_cases c d w0)
        as [(F0 & e & w' & E1 & D1) | (F0 & id & w' & E1 & D1 & _)];
      rewrite E1
  end; [discriminate |].
  intros E. injection E as <- <-. exists id. eexists.
  split; [reflexivity |]. split; [exact D1 |].
  split; [rewrite stamp_lookup by discriminate; reflexivity |].
  apply stamp_lookup_id.
Qed.

(** C7.  A post created through [POST /api/community/post] is answered and
    stored with status "pending".  [GET /api/community/feed] returns at most
    50 documents, all of them posts of the store with status "published".
    Hence the created document, as long as it is stored the way it was
    created, is in no feed result. *)
Theorem created_post_pending_not_in_feed (body r : gmap string value)
    (w w1 : World MemStore.t) :
  post_api_community_post body w = (Ok200 r, w1) ->
  r !! "status"%string = Some (VStr (py "pending")) /\
  exists d,
    MemStore.docs (store w1) = MemStore.docs (store w) ++ [("post"%string, d)] /\
    d !! "status"%string = Some (VStr (py "pending")) /\
    d !! "_id"%string = r !! "id"%string /\
    forall (w2 w3 : World MemStore.t) (items : list (gmap string value)),
      get_api_community_feed w2 = (Ok200 items, w3) ->
      (length items <= 50)%nat /\
      (forall p, In p items ->
         In ("post"%string, p) (MemStore.docs (store w2)) /\
         p !! "status"%string = Some (VStr (py "published"))) /\
      ~ In d items.
Proof.
  intros E. apply create_post_stored in E as (id & d & -> & D & St & Id).
  split; [reflexivity |]. exists d.
  split; [exact D |]. split; [exact St |]. split; [rewrite Id; reflexivity |].
  intros w2 w3 items F. apply feed_only_published in F as [Hlen Hpub].
  split; [exact Hlen |]. split; [exact Hpub |].
  intros Hin. apply Hpub in Hin as [_ P]. rewrite St in P. discriminate P.
Qed.

(** After a moderation decision taken outside the program sets the status
    to "published", the post is served by the feed. *)

Example hello_post_published_later :
  let w1 := snd (post_api_community_post hello_post_body (mem_world MemStore.empty)) in
  let w2 := {| store := MemStore.set_status (py "1") (py "published") (store w1);
               rng := rng w1 |} in
  fst (get_api_community_feed w1) = Ok200 [] /\
  match fst (get_api_community_feed w2) with
  | Ok200 [p] =>
      p !! "content"%string = Some (VStr (py "hello")) /\
      p !! "_id"%string = Some (VStr (py "1")) /\
      p !! "status"%string = Some (VStr (py "published"))
  | _ => False
  end.
Proof.
  cbv zeta. split; [vm_compute; reflexivity |].
  vm_compute. repeat split; reflexivity.
Qed.

(** A route that evaluates to a 200 has a body and a final world. *)
Lemma route_ok_intro {A W : Type} (x : http A * W) :
  match fst x with Ok200 _ => true | _ => false end = true ->
  exists r w', x = (Ok200 r, w').
Proof.
  destruct x as [[r | detail | e] w']; simpl; try discriminate.
  intros _. now exists r, w'.
Qed.

Lemma created_post_pending_not_in_feed_witness :
  exists r w1,
    post_api_community_post hello_post_body (mem_world MemStore.empty) = (Ok200 r, w1) /\
    r !! "status"%string = Some (VStr (py "pending")) /\
    exists d,
      MemStore.docs (store w1) = [("post"%string, d)] /\
      d !! "status"%string = Some (VStr (py "pending")) /\
      forall (w3 : World MemStore.t) (items : list (gmap string value)),
        get_api_community_feed w1 = (Ok200 items, w3) -> ~ In d items.
Proof.
  assert (E : exists r w1,
             post_api_community_post hello_post_body (mem_world MemStore.empty)
             = (Ok200 r, w1)) by (apply route_ok_intro; vm_compute; reflexivity).
  destruct E as (r & w1 & E). exists r, w1. split; [exact E |].
  destruct (created_post_pending_not_in_feed _ _ _ _ E) as (St & d & D & Sd & _ & F).
  split; [exact St |]. exists d. split; [exact D |]. split; [exact Sd |].
  intros w3 items G. exact (proj2 (proj2 (F w1 w3 items G))).
Defined.

(** ** Witnesses for the chat route *)

Lemma heavy_chat_body_valid :
  validate_ChatRequest heavy_chat_body = inr heavy_chat_request.
Proof. vm_compute. reflexivity. Qed.

Lemma heavy_chat_lang_encodable :
  utf8_encodable (or_else (ChatRequest.lang heavy_chat_request) (py "en")) = true.
Proof. vm_compute. reflexivity. Qed.

Lemma suggest_break_iff_intensity_witness :
  exists resp w',
    post_api_chat heavy_chat_body (mem_world MemStore.empty) = (Ok200 resp, w') /\
    (ChatResponse.suggest_break resp = true <->
     (8 # 10 <= ChatResponse.intensity resp)%Q).
Proof.
  destruct (post_api_chat_valid heavy_chat_body heavy_chat_request
              (mem_world MemStore.empty) heavy_chat_body_valid
              heavy_chat_lang_encodable) as [w' E].
  exists (chat_response heavy_chat_request), w'.
  split; [exact E | exact (suggest_break_iff_intensity _ _ _ _ E)].
Defined.

Lemma suggest_break_implies_breathing_witness :
  exists resp w',
    post_api_chat heavy_chat_body (mem_world MemStore.empty) = (Ok200 resp, w') /\
    ChatResponse.suggest_break resp = true /\
    exists base, ChatResponse.reply resp = base ++ ADD_BREATHE.
Proof.
  destruct (post_api_chat_valid heavy_chat_body heavy_chat_request
              (mem_world MemStore.empty) heavy_chat_body_valid
              heavy_chat_lang_encodable) as [w' E].
  assert (B : ChatResponse.suggest_break (chat_response heavy_chat_request) = true)
    by (vm_compute; reflexivity).
  exists (chat_response heavy_chat_request), w'.
  split; [exact E |]. split; [exact B |].
  exact (suggest_break_implies_breathing _ _ _ _ E B).
Defined.

Lemma store_failure_policy_witness :
  store_down (mem_world down_store) /\
  (exists w', post_api_chat heavy_chat_body (mem_world down_store)
              = (Ok200 (chat_response heavy_chat_request), w')) /\
  (exists e w', post_api_community_post hello_post_body (mem_world down_store)
                = (ServerError500 e, w')).
Proof.
  assert (H : store_down (mem_world down_store))
    by (intros c d; eexists; reflexivity).
  destruct (store_failure_policy (mem_world down_store) H) as (Hc & _ & Hp & _).
  split; [exact H |]. split.
  - exact (Hc heavy_chat_body heavy_chat_request heavy_chat_body_valid
              heavy_chat_lang_encodable).
  - apply (Hp hello_post_body {| NewPost.content := py "hello" |}).
    vm_compute. reflexivity.
Defined.

Lemma chat_persists_placeholders_witness :
  exists u a,
    MemStore.docs (store (snd (chat heavy_chat_request (mem_world MemStore.empty))))
    = [u; a] /\
    placeholder_for (py "user") (ChatRequest.text heavy_chat_request) u /\
    placeholder_for (py "assistant")
      (ChatResponse.reply (chat_response heavy_chat_request)) a.
Proof.
  destruct (chat_persists_placeholders heavy_chat_request (mem_world MemStore.empty))
    as (added & D & Shape & Two).
  specialize (Two eq_refl eq_refl).
  destruct Shape as [-> | [(u & -> & _) | (u & a & -> & Hu & Ha)]];
    [discriminate Two | discriminate Two |].
  exists u, a. split; [exact D | split; assumption].
Defined.

(** ** Claims on the mood and counselor routes *)

(** The range declared for [MoodEntry.mood] in [schemas.py]: 0 and 6 are
    refused with an error on the field, 1 and 5 are taken. *)
Lemma MoodEntry_range :
  MoodEntry.validate (mood_body 0) = inl [("mood", "greater_than_equal")%string] /\
  MoodEntry.validate (mood_body 6) = inl [("mood", "less_than_equal")%string] /\
  MoodEntry.validate (mood_body 1)
  = inr {| MoodEntry.session_id := py "s1"; MoodEntry.mood := 1;
           MoodEntry.note := None |} /\
  MoodEntry.validate (mood_body 5)
  = inr {| MoodEntry.session_id := py "s1"; MoodEntry.mood := 5;
           MoodEntry.note := None |}.
Proof. repeat split; vm_compute; reflexivity. Qed.

(** C1, on the code.  The request model of [POST /api/wellness/mood] is
    [MoodReq], whose [mood] is a plain [int]: a body with any integer mood,
    0 and 6 included, passes validation, the handler runs, and the mood is
    stored as sent.  (1 and 5 are accepted as the claim says.) *)
Theorem mood_range_not_enforced (z : Z) :
  validate_MoodReq (mood_body z)
  = inr {| MoodReq.session_id := py "s1"; MoodReq.mood := z; MoodReq.note := None |} /\
  exists r w' d,
    post_api_wellness_mood (mood_body z) (mem_world MemStore.empty) = (Ok200 r, w') /\
    MemStore.docs (store w') = [("moodentry"%string, d)] /\
    d !! "mood"%string = Some (VInt z).
Proof.
  assert (V : validate_MoodReq (mood_body z)
              = inr {| MoodReq.session_id := py "s1"; MoodReq.mood := z;
                       MoodReq.note := None |}) by (vm_compute; reflexivity).
  split; [exact V |].
  unfold post_api_wellness_mood, route. rewrite V.
  unfold add_mood, bind, ret.
  match goal with
  | |- context [create_document ?c ?d ?w0] =>
      destruct (mem_create_cases c d w0)
        as [(F0 & _) | (_ & id & w' & E1 & D1 & _)];
      [discriminate F0 | rewrite E1]
  end.
  eexists; eexists; eexists. split; [reflexivity |].
  split; [exact D1 |].
  rewrite stamp_lookup by discriminate. vm_compute. reflexivity.
Qed.

(** C4, on the code.  [POST /api/premium/request] answers with status
    "queued", but the document it hands to the store is the dump of
    [CounselorReq], which has no [status] field: the stored document carries
    no status. *)
Theorem request_listener_stores_no_status (body r : gmap string value)
    (w w1 : World MemStore.t) :
  post_api_premium_request body w = (Ok200 r, w1) ->
  r !! "status"%string = Some (VStr (py "queued")) /\
  exists d,
    MemStore.docs (store w1)
    = MemStore.docs (store w) ++ [("counselorrequest"%string, d)] /\
    d !! "status"%string = None.
Proof.
  unfold post_api_premium_request, route.
  destruct (validate_CounselorReq body) as [detail | req]; [discriminate |].
  unfold request_listener, bind, ret.
  match goal with
  | |- context [create_document ?c ?d ?w0] =>
      destruct (mem_create_cases c d w0)
        as [(F0 & e & w' & E1 & D1) | (F0 & id & w' & E1 & D1 & _)];
      rewrite E1
  end; [discriminate |].
  intros E. injection E as <- <-. split; [reflexivity |].
  eexists. split; [exact D1 |].
  rewrite stamp_lookup by discriminate. reflexivity.
Qed.

Lemma request_listener_stores_no_status_witness :
  exists r w1,
    post_api_premium_request counselor_body (mem_world MemStore.empty) = (Ok200 r, w1) /\
    r !! "status"%string = Some (VStr (py "queued")) /\
    exists d,
      MemStore.docs (store w1) = [("counselorrequest"%string, d)] /\
      d !! "status"%string = None.
Proof.
  assert (E : exists r w1,
             post_api_premium_request counselor_body (mem_world MemStore.empty)
             = (Ok200 r, w1)) by (apply route_ok_intro; vm_compute; reflexivity).
  destruct E as (r & w1 & E). exists r, w1. split; [exact E |].
  exact (request_listener_stores_no_status _ _ _ _ E).
Defined.

(** The schema [CounselorRequest] of [schemas.py], had the route built the
    document through it, would have filled in the status. *)
Example CounselorRequest_default_status :
  let c := {| CounselorRequest.session_id := py "s1";
              CounselorRequest.topic := None;
              CounselorRequest.status := py "queued" |} in
  CounselorRequest.validate counselor_body = inr c /\
  CounselorRequest.model_dump c !! "status"%string = Some (VStr (py "queued")).
Proof. split; vm_compute; reflexivity. Qed.

(** * Further properties of the code *)

(** ** The intensity heuristic *)

(** X1.  The score is always one of the nine values [0/8, 1/8, ..., 8/8]; in
    particular it lies in [[0, 1]]. *)
Theorem estimate_intensity_eighths (text : list N) :
  exists j, 0 <= j <= 8 /\ estimate_intensity text == j # 8 /\
            (0 <= estimate_intensity text <= 1)%Q.
Proof.
  pose proof (raw_score_range text) as Hr.
  destruct (estimate_intensity_cases text) as [[H E] | [H E]].
  - exists (raw_score text). split; [lia |]. split; [exact E |].
    rewrite E. unfold Qle; simpl; lia.
  - exists 8. split; [lia |]. split; [rewrite E; reflexivity |].
    rewrite E. unfold Qle; simpl; lia.
Qed.

Lemma no_word_raw_score (text : list N) :
  words_present text 0 -> raw_score text <= 5.
Proof.
  intros H. apply words_present_count in H.
  rewrite raw_score_split, H. cbn [Z.of_nat]. lia.
Qed.

(** X2.  Length alone never triggers anything: a text that contains none of
    the trigger words scores at most [5/8] however long it is, so it gets the
    invitation to go on as suffix, never the breathing exercise, and its score
    is below the threshold of [suggest_break]. *)
Theorem no_trigger_word_never_alarms (text : list N) :
  words_present text 0 ->
  (estimate_intensity text <= 5 # 8)%Q /\
  Qgeb (estimate_intensity text) F0_8 = false /\
  forall lang, exists base, generate_reply text lang = base ++ ADD_MORE.
Proof.
  intros H. apply no_word_raw_score in H.
  pose proof (raw_score_range text) as Hr.
  split; [| split].
  - destruct (estimate_intensity_cases text) as [[H1 E] | [H1 E]]; [| lia].
    rewrite E. unfold Qle; simpl; lia.
  - apply not_true_is_false. rewrite at_least_0_8_iff. lia.
  - intros lang. unfold generate_reply.
    assert (G : Qgtb (estimate_intensity text) F0_7 = false)
      by (apply not_true_is_false; rewrite above_0_7_iff; lia).
    rewrite G. eexists. reflexivity.
Qed.

Lemma no_trigger_word_never_alarms_witness :
  words_present (py "hello there") 0 /\
  (estimate_intensity (py "hello there") <= 5 # 8)%Q /\
  Qgeb (estimate_intensity (py "hello there")) F0_8 = false /\
  forall lang, exists base, generate_reply (py "hello there") lang = base ++ ADD_MORE.
Proof.
  assert (H : words_present (py "hello there") 0)
    by (apply words_present_count; vm_compute; reflexivity).
  split; [exact H | exact (no_trigger_word_never_alarms _ H)].
Defined.

Lemma clamp_nonneg (x : Q) : (0 <= x)%Q -> clamp x 0 1 == Qmin 1 x.
Proof.
  intros H. unfold clamp. apply Q.max_r.
  apply Q.min_glb; [discriminate | exact H].
Qed.

(** X3.  The length bonus is nothing below 120 characters and saturates at
    600: with [k] trigger words present, a text shorter than 120 characters
    scores [min(1, k/8)] and a text of 600 characters or more scores
    [min(1, (k+5)/8)], whatever its exact length. *)
Theorem length_bonus_extremes (text : list N) (k : nat) :
  words_present text k ->
  (len text < 120 -> estimate_intensity text == Qmin 1 (Z.of_nat k # 8)) /\
  (600 <= len text -> estimate_intensity text == Qmin 1 (Z.of_nat k + 5 # 8)).
Proof.
  intros H. apply words_present_count in H.
  pose proof (len_nonneg text) as Hl.
  split; intros HL; rewrite estimate_intensity_spec, H; unfold spec_intensity.
  - rewrite Z.div_small, Z.min_r, Z.add_0_r by lia.
    rewrite clamp_nonneg.
    + apply Q.min_compat; [reflexivity |].
      unfold Qeq, Qdiv, Qmult, Qinv, inject_Z; simpl. lia.
    + unfold Qle, Qdiv, Qmult, Qinv, inject_Z; simpl. lia.
  - assert (5 <= len text / 120) by (apply Z.div_le_lower_bound; lia).
    rewrite Z.min_l by lia.
    rewrite clamp_nonneg.
    + apply Q.min_compat; [reflexivity |].
      unfold Qeq, Qdiv, Qmult, Qinv, inject_Z; simpl. lia.
    + unfold Qle, Qdiv, Qmult, Qinv, inject_Z; simpl. lia.
Qed.

Lemma length_bonus_extremes_witness :
  words_present (py "so angry") 1 /\
  len (py "so angry") < 120 /\
  estimate_intensity (py "so angry") == Qmin 1 (1 # 8).
Proof.
  assert (H : words_present (py "so angry") 1)
    by (apply words_present_count; vm_compute; reflexivity).
  assert (L : len (py "so angry") < 120) by (vm_compute; reflexivity).
  split; [exact H |]. split; [exact L |].
  exact (proj1 (length_bonus_extremes (py "so angry") 1 H) L).
Defined.

Lemma lower_cp_stable (c : N) : flat_map lower_cp (lower_cp c) = lower_cp c.
Proof.
  unfold lower_cp at 2 3.
  destruct ((65 <=? c) && (c <=? 90))%N eqn:A.
  { apply andb_true_iff in A as [A1 A2].
    apply N.leb_le in A1, A2. cbn [flat_map]. rewrite app_nil_r.
    unfold lower_cp.
    replace ((65 <=? c + 32) && (c + 32 <=? 90))%N with false
      by (symmetry; apply andb_false_iff; right; apply N.leb_gt; lia).
    replace ((192 <=? c + 32) && (c + 32 <=? 222) && negb (c + 32 =? 215))%N
      with false
      by (symmetry; apply andb_false_iff; left; apply andb_false_iff; left;
          apply N.leb_gt; lia).
    replace (c + 32 =? 304)%N with false by (symmetry; apply N.eqb_neq; lia).
    replace (c + 32 =? 8490)%N with false by (symmetry; apply N.eqb_neq; lia).
    reflexivity. }
  destruct ((192 <=? c) && (c <=? 222) && negb (c =? 215))%N eqn:B.
  { apply andb_true_iff in B as [B12 B3].
    apply andb_true_iff in B12 as [B1 B2].
    apply N.leb_le in B1, B2. cbn [flat_map]. rewrite app_nil_r.
    unfold lower_cp.
    replace ((65 <=? c + 32) && (c + 32 <=? 90))%N with false
      by (symmetry; apply andb_false_iff; right; apply N.leb_gt; lia).
    replace ((192 <=? c + 32) && (c + 32 <=? 222) && negb (c + 32 =? 215))%N
      with false
      by (symmetry; apply andb_false_iff; left; apply andb_false_iff; right;
          apply N.leb_gt; lia).
    replace (c + 32 =? 304)%N with false by (symmetry; apply N.eqb_neq; lia).
    replace (c + 32 =? 8490)%N with false by (symmetry; apply N.eqb_neq; lia).
    reflexivity. }
  destruct (c =? 304)%N eqn:C; [reflexivity |].
  destruct (c =? 8490)%N eqn:D; [reflexivity |].
  cbn [flat_map]. rewrite app_nil_r. unfold lower_cp. now rewrite A, B, C, D.
Qed.

Lemma lower_idempotent (s : list N) : lower (lower s) = lower s.
Proof.
  unfold lower. induction s as [|c s IH]; [reflexivity |].
  cbn [flat_map]. rewrite flat_map_app, IH, lower_cp_stable. reflexivity.
Qed.

Lemma lower_cp_length (c : N) : c <> 304%N -> length (lower_cp c) = 1%nat.
Proof.
  intros H. unfold lower_cp.
  repeat match goal with
         | |- context [if ?b then _ else _] => destruct b eqn:?
         end; try reflexivity.
  apply N.eqb_eq in Heqb1. contradiction.
Qed.

Lemma lower_length (s : list N) :
  Forall (fun c => c <> 304%N) s -> length (lower s) = length s.
Proof.
  unfold lower. induction 1 as [|c s Hc _ IH]; [reflexivity |].
  cbn [flat_map]. rewrite length_app, IH, lower_cp_length by assumption.
  reflexivity.
Qed.

(** X4.  The score ignores letter case: lowering a text (one without
    U+0130, the only character whose lowercase form is longer) leaves its
    score as it is. *)
Theorem estimate_intensity_ignores_case (text : list N) :
  Forall (fun c => c <> 304%N) text ->
  estimate_intensity (lower text) = estimate_intensity text.
Proof.
  intros H. unfold estimate_intensity, raw_score, len. cbv zeta.
  now rewrite lower_idempotent, lower_length.
Qed.

Lemma estimate_intensity_ignores_case_witness :
  Forall (fun c => c <> 304%N) (py "I HATE it") /\
  estimate_intensity (lower (py "I HATE it")) = estimate_intensity (py "I HATE it").
Proof.
  assert (H : Forall (fun c => c <> 304%N) (py "I HATE it"))
    by (repeat constructor; discriminate).
  split; [exact H | exact (estimate_intensity_ignores_case _ H)].
Defined.

(** ** The chat route *)


Lemma validate_ChatRequest_lang (body : gmap string value) (req : ChatRequest.t) :
  validate_ChatRequest body = inr req ->
  body !! "lang"%string = None \/ body !! "lang"%string = Some VNone \/
  body !! "lang"%string = Some (VStr []) ->
  or_else (ChatRequest.lang req) (py "en") = py "en".
Proof.
  unfold validate_ChatRequest.
  destruct (required_str "session_id" body) as [e1 | s];
    destruct (required_str "text" body) as [e2 | t]; try discriminate.
  unfold optional_str.
  intros E [L | [L | L]]; rewrite L in E; injection E as <-; reflexivity.
Qed.

Lemma english_reply (text : list N) :
  exists base add,
    In base SOFT_RESPONSES_EN /\ generate_reply text (py "en") = base ++ add.
Proof.
  unfold generate_reply. rewrite or_else_some_nil.
  change (startswith (lower (py "en")) (py "hi")) with false. cbv iota.
  eexists; eexists. split; [| reflexivity].
  apply nth_In. exact (sentence_index text).
Qed.

(** X5.  Reading a stored placeholder back (dropping "enc::", reversing)
    gives the content it stands for: the user's text for the user document,
    the reply for the assistant document.  The placeholder hides nothing. *)
Theorem placeholders_are_reversible (req : ChatRequest.t) (reply : list N)
    (q : Q) :
  exists cu ca,
    chat_user_document req q !! "ciphertext"%string = Some (VStr cu) /\
    read_placeholder cu = ChatRequest.text req /\
    chat_assistant_document req reply q !! "ciphertext"%string = Some (VStr ca) /\
    read_placeholder ca = reply.
Proof.
  exists (py "enc::" ++ reversed (ChatRequest.text req)),
         (py "enc::" ++ reversed reply).
  unfold read_placeholder, reversed.
  repeat split; try reflexivity; cbn [py skipn app List.map list_ascii_of_string];
    apply rev_involutive.
Qed.

(** X6.  The two documents [chat] builds are valid [Message] documents of
    [schemas.py]: in particular the stored intensity respects the declared
    bounds [ge=0, le=1], and the [text] they carry is empty. *)
Theorem chat_documents_conform_to_Message (req : ChatRequest.t) :
  let q := estimate_intensity (ChatRequest.text req) in
  let reply :=
    generate_reply (ChatRequest.text req)
                   (or_else (ChatRequest.lang req) (py "en")) in
  Message.validate (chat_user_document req q)
  = inr {| Message.session_id := ChatRequest.session_id req;
           Message.role := py "user";
           Message.text := [];
           Message.ciphertext := Some (py "enc::" ++ reversed (ChatRequest.text req));
           Message.intensity := Some q;
           Message.lang := ChatRequest.lang req |} /\
  Message.validate (chat_assistant_document req reply q)
  = inr {| Message.session_id := ChatRequest.session_id req;
           Message.role := py "assistant";
           Message.text := [];
           Message.ciphertext := Some (py "enc::" ++ reversed reply);
           Message.intensity := Some q;
           Message.lang := ChatRequest.lang req |}.
Proof.
  cbv zeta.
  destruct (estimate_intensity_bounded (ChatRequest.text req)) as [Lo Hi].
  apply Qle_bool_iff in Lo, Hi.
  assert (F : forall d : gmap string value,
             d !! "intensity"%string
             = Some (VFloat (estimate_intensity (ChatRequest.text req))) ->
             optional_float_ge_le "intensity" 0 1 d
             = inr (Some (estimate_intensity (ChatRequest.text req)))).
  { intros d H. unfold optional_float_ge_le. rewrite H, Lo, Hi. reflexivity. }
  assert (L : forall d : gmap string value,
             d !! "lang"%string = Some (of_optional_str (ChatRequest.lang req)) ->
             optional_str "lang" (Some (py "en")) d = inr (ChatRequest.lang req)).
  { intros d H. unfold optional_str. rewrite H.
    now destruct (ChatRequest.lang req). }
  split; unfold Message.validate; rewrite F, L by reflexivity; reflexivity.
Qed.

Section ChatFacts.

Context {Store : Type} `{!StoreAdapter Store}.


(** X8.  When the body gives no language (the field is absent, null or
    empty), the response says "en" and the reply is built on an English base
    sentence. *)
Theorem chat_without_lang_is_english (body : gmap string value)
    (w w' : World Store) (resp : ChatResponse.t) :
  post_api_chat body w = (Ok200 resp, w') ->
  body !! "lang"%string = None \/ body !! "lang"%string = Some VNone \/
  body !! "lang"%string = Some (VStr []) ->
  ChatResponse.lang resp = py "en" /\
  exists base add,
    In base SOFT_RESPONSES_EN /\ ChatResponse.reply resp = base ++ add.
Proof.
  intros E L. apply post_api_chat_ok in E as (req & V & ->).
  pose proof (validate_ChatRequest_lang body req V L) as Len.
  cbn [chat_response ChatResponse.lang ChatResponse.reply]. rewrite Len.
  split; [reflexivity | apply english_reply].
Qed.

End ChatFacts.

(** A language made of one surrogate code point: 500 on a working store and
    on a store that is down alike. *)
Example chat_lone_surrogate_lang :
  let body := dict [("session_id"%string, VStr (py "s1"));
                    ("text"%string, VStr (py "hello"));
                    ("lang"%string, VStr [55296%N])] in
  fst (post_api_chat body (mem_world MemStore.empty))
  = ServerError500 "response serialization" /\
  fst (post_api_chat body (mem_world down_store))
  = ServerError500 "response serialization".
Proof. split; vm_compute; reflexivity. Qed.

Lemma chat_without_lang_is_english_witness :
  exists resp w',
    post_api_chat heavy_chat_body (mem_world MemStore.empty) = (Ok200 resp, w') /\
    ChatResponse.lang resp = py "en" /\
    exists base add,
      In base SOFT_RESPONSES_EN /\ ChatResponse.reply resp = base ++ add.
Proof.
  destruct (post_api_chat_valid heavy_chat_body heavy_chat_request
              (mem_world MemStore.empty) heavy_chat_body_valid
              heavy_chat_lang_encodable) as [w' E].
  exists (chat_response heavy_chat_request), w'.
  split; [exact E |].
  apply (chat_without_lang_is_english _ _ _ _ E).
  left. vm_compute. reflexivity.
Defined.

(** ** The community routes *)

Lemma next_randint_range (a b : Z) (g : Rng) :
  a <= b -> a <= fst (next_randint a b g) <= b.
Proof.
  intros H. unfold next_randint; cbn [fst].
  pose proof (Z.mod_pos_bound (Z.of_N (draws g (drawn g))) (b - a + 1)).
  lia.
Qed.

(** Every integer of [[lo, lo + n)] passes a check that passes on each. *)
Lemma checked_range (check : Z -> bool) (lo : Z) (n : nat) :
  forallb (fun i => check (lo + Z.of_nat i)) (seq 0 n) = true ->
  forall z, lo <= z < lo + Z.of_nat n -> check z = true.
Proof.
  intros H z Hz. rewrite forallb_forall in H.
  specialize (H (Z.to_nat (z - lo))).
  replace (lo + Z.of_nat (Z.to_nat (z - lo))) with z in H by lia.
  apply H, in_seq. lia.
Qed.

Lemma digitsb_spec (width : nat) (z : Z) :
  digitsb width z = true ->
  length (str_of_int z) = width /\ Forall is_digit (str_of_int z).
Proof.
  unfold digitsb. rewrite andb_true_iff, Nat.eqb_eq, forallb_forall.
  intros [L D]. split; [exact L |].
  apply List.Forall_forall. intros c Hc. apply D in Hc.
  apply andb_true_iff in Hc as [H1 H2]. apply N.leb_le in H1, H2.
  split; assumption.
Qed.

Lemma three_digits (z : Z) :
  100 <= z <= 999 ->
  length (str_of_int z) = 3%nat /\ Forall is_digit (str_of_int z).
Proof.
  intros H. apply digitsb_spec.
  apply (checked_range (digitsb 3) 100 900); [vm_compute; reflexivity | lia].
Qed.

Lemma up_to_four_digits (z : Z) :
  1 <= z <= 9999 ->
  (1 <= length (str_of_int z) <= 4)%nat /\ Forall is_digit (str_of_int z).
Proof.
  intros H.
  assert (C : one_to_four_digitsb z = true).
  { apply (checked_range one_to_four_digitsb 1 (Z.to_nat 9999));
      [vm_compute; reflexivity | lia]. }
  unfold one_to_four_digitsb in C.
  repeat (apply orb_true_iff in C as [C | C]);
    apply digitsb_spec in C as [L D]; (split; [lia | exact D]).
Qed.

Section AliasFacts.

Context {Store : Type} `{!StoreAdapter Store}.

(** X9.  [make_alias] always returns an eight-character handle: "Ally-"
    followed by the three decimal digits of a number between 100 and 999.  It
    does not touch the store. *)
Theorem make_alias_format (w : World Store) :
  exists n w',
    make_alias w = (Returned (py "Ally-" ++ str_of_int n), w') /\
    100 <= n <= 999 /\
    length (py "Ally-" ++ str_of_int n) = 8%nat /\
    Forall is_digit (str_of_int n) /\
    store w' = store w.
Proof.
  unfold make_alias, bind, randint, ret.
  pose proof (next_randint_range 100 999 (rng w) ltac:(lia)) as R.
  destruct (next_randint 100 999 (rng w)) as [n g]. cbn [fst] in R.
  destruct (three_digits n R) as [L D].
  eexists; eexists. split; [reflexivity |].
  split; [exact R |]. split; [rewrite length_app, L; reflexivity |].
  split; [exact D | reflexivity].
Qed.

End AliasFacts.

Lemma mem_create_post_document (data : NewPost.t) (w w1 : World MemStore.t)
    (r : gmap string value) :
  create_post data w = (Returned r, w1) ->
  exists n m id,
    100 <= n <= 999 /\ 1 <= m <= 9999 /\
    MemStore.docs (store w1)
    = MemStore.docs (store w)
      ++ [("post"%string,
           MemStore.stamp id (MemStore.clock (store w))
             (dict [("alias", VStr (py "Ally-" ++ str_of_int n));
                    ("avatar_seed", VStr (str_of_int m));
                    ("content", VStr (NewPost.content data));
                    ("status", VStr (py "pending"));
                    ("reports", VInt 0)]%string))].
Proof.
  unfold create_post, make_alias, bind, randint, ret.
  pose proof (next_randint_range 100 999 (rng w) ltac:(lia)) as R1.
  destruct (next_randint 100 999 (rng w)) as [n g1]. cbn [fst] in R1.
  cbn [rng store].
  pose proof (next_randint_range 1 9999 g1 ltac:(lia)) as R2.
  destruct (next_randint 1 9999 g1) as [m g2]. cbn [fst] in R2.
  match goal with
  | |- context [create_document ?c ?d ?w0] =>
      destruct (mem_create_cases c d w0)
        as [(F0 & e & w' & E1 & D1) | (F0 & id & w' & E1 & D1 & _)];
      rewrite E1
  end; [discriminate |].
  intros E. injection E as _ <-. exists n, m, id.
  split; [exact R1 |]. split; [exact R2 | exact D1].
Qed.

(** X10.  The document a successful [POST /api/community/post] stores
    carries the content exactly as sent, a report counter of 0, an alias
    "Ally-" plus a number of 100..999 and, as avatar seed, the decimal digits
    (one to four) of a number of 1..9999.  It is a valid [Post] of
    [schemas.py]. *)
Theorem create_post_document (body r : gmap string value)
    (w w1 : World MemStore.t) :
  post_api_community_post body w = (Ok200 r, w1) ->
  exists content n m d,
    body !! "content"%string = Some (VStr content) /\
    MemStore.docs (store w1) = MemStore.docs (store w) ++ [("post"%string, d)] /\
    d !! "content"%string = Some (VStr content) /\
    d !! "reports"%string = Some (VInt 0) /\
    d !! "alias"%string = Some (VStr (py "Ally-" ++ str_of_int n)) /\
    100 <= n <= 999 /\
    d !! "avatar_seed"%string = Some (VStr (str_of_int m)) /\
    1 <= m <= 9999 /\
    (1 <= length (str_of_int m) <= 4)%nat /\ Forall is_digit (str_of_int m) /\
    Post.validate d
    = inr {| Post.alias := py "Ally-" ++ str_of_int n;
             Post.avatar_seed := Some (str_of_int m);
             Post.content := content;
             Post.status := py "pending";
             Post.reports := 0 |}.
Proof.
  unfold post_api_community_post, route, validate_NewPost, required_str.
  destruct (body !! "content"%string) as [[| | | | content] |] eqn:C;
    try discriminate.
  destruct (create_post _ w) as [[r0 | e] w0] eqn:E; [| discriminate].
  intros H. injection H as <- <-.
  apply mem_create_post_document in E as (n & m & id & R1 & R2 & D).
  cbn [NewPost.content] in D.
  destruct (up_to_four_digits m R2) as [L Dg].
  exists content, n, m. eexists.
  split; [reflexivity |]. split; [exact D |].
  repeat split; try rewrite stamp_lookup by discriminate;
    try reflexivity; try lia; try exact Dg.
Qed.

Lemma create_post_document_witness :
  exists r w1 d m,
    post_api_community_post hello_post_body (mem_world MemStore.empty) = (Ok200 r, w1) /\
    MemStore.docs (store w1) = [("post"%string, d)] /\
    d !! "content"%string = Some (VStr (py "hello")) /\
    d !! "reports"%string = Some (VInt 0) /\
    d !! "avatar_seed"%string = Some (VStr (str_of_int m)) /\ 1 <= m <= 9999.
Proof.
  assert (E : exists r w1,
             post_api_community_post hello_post_body (mem_world MemStore.empty)
             = (Ok200 r, w1)) by (apply route_ok_intro; vm_compute; reflexivity).
  destruct E as (r & w1 & E).
  destruct (create_post_document _ _ _ _ E)
    as (content & n & m & d & C & D & Dc & Dr & _ & _ & Ds & Rm & _).
  exists r, w1, d, m. split; [exact E |]. split; [exact D |].
  assert (content = py "hello") as ->
    by (vm_compute in C; now injection C as <-).
  repeat split; assumption || lia.
Defined.

Lemma required_str_inr (k : string) (b : gmap string value) (s : list N) :
  required_str k b = inr s -> b !! k = Some (VStr s).
Proof.
  unfold required_str.
  destruct (b !! k) as [[| | | | s'] |]; try discriminate.
  now intros [= ->].
Qed.

Lemma select_app (c : string) (f : gmap string value)
    (l1 l2 : list (string * gmap string value)) :
  MemStore.select c f (l1 ++ l2) = MemStore.select c f l1 ++ MemStore.select c f l2.
Proof. unfold MemStore.select. now rewrite List.filter_app, List.map_app. Qed.

Lemma select_other_collection (c c' : string) (f d : gmap string value)
    (l : list (string * gmap string value)) :
  c' <> c -> MemStore.select c f (l ++ [(c', d)]) = MemStore.select c f l.
Proof.
  intros H. rewrite select_app. unfold MemStore.select at 2. cbn.
  apply String.eqb_neq in H. rewrite H. cbn. apply app_nil_r.
Qed.

(** X11.  [POST /api/community/reply] never looks the parent post up: on any
    store that accepts the write, whatever it holds, a valid body is answered
    "pending" and a reply with the given [post_id] is stored. *)
Theorem add_reply_ignores_parent (body : gmap string value) (data : NewReply.t)
    (w : World MemStore.t) :
  validate_NewReply body = inr data ->
  fails_at 0 (store w) = false ->
  exists r w1 d,
    post_api_community_reply body w = (Ok200 r, w1) /\
    r !! "status"%string = Some (VStr (py "pending")) /\
    MemStore.docs (store w1) = MemStore.docs (store w) ++ [("reply"%string, d)] /\
    d !! "post_id"%string = Some (VStr (NewReply.post_id data)) /\
    d !! "content"%string = Some (VStr (NewReply.content data)) /\
    d !! "status"%string = Some (VStr (py "pending")).
Proof.
  intros V F. unfold post_api_community_reply, route. rewrite V.
  unfold add_reply, make_alias, bind, randint, ret.
  destruct (next_randint 100 999 (rng w)) as [n g1].
  match goal with
  | |- context [create_document ?c ?d ?w0] =>
      destruct (mem_create_cases c d w0)
        as [(F0 & _) | (_ & id & w' & E1 & D1 & _)];
      [cbn [store] in F0; congruence | rewrite E1]
  end.
  eexists; eexists; eexists. split; [reflexivity |].
  split; [reflexivity |]. split; [exact D1 |].
  repeat split; rewrite stamp_lookup by discriminate; reflexivity.
Qed.

Lemma add_reply_ignores_parent_witness :
  exists r w1 d,
    post_api_community_reply orphan_reply_body (mem_world MemStore.empty)
    = (Ok200 r, w1) /\
    MemStore.docs (store w1) = [("reply"%string, d)] /\
    d !! "post_id"%string = Some (VStr (py "no-such-post")).
Proof.
  destruct (add_reply_ignores_parent orphan_reply_body
              {| NewReply.post_id := py "no-such-post";
                 NewReply.content := py "me too" |}
              (mem_world MemStore.empty))
    as (r & w1 & d & E & _ & D & P & _);
    [vm_compute; reflexivity | reflexivity |].
  exists r, w1, d. split; [exact E |]. split; [exact D | exact P].
Defined.

(** X12.  A successful [POST /api/community/report] only adds one report
    document, with the target as sent, and answers [queued: true].  Nothing
    else changes: any query on another collection gives the same documents as
    before, so the reported post keeps its [reports] counter and its status. *)
Theorem report_changes_nothing_else (body r : gmap string value)
    (w w1 : World MemStore.t) :
  post_api_community_report body w = (Ok200 r, w1) ->
  r !! "queued"%string = Some (VBool true) /\
  exists d,
    MemStore.docs (store w1) = MemStore.docs (store w) ++ [("report"%string, d)] /\
    d !! "target_type"%string = body !! "target_type"%string /\
    d !! "target_id"%string = body !! "target_id"%string /\
    forall c f, c <> "report"%string ->
      MemStore.select c f (MemStore.docs (store w1))
      = MemStore.select c f (MemStore.docs (store w)).
Proof.
  unfold post_api_community_report, route, validate_ReportReq.
  destruct (required_str "target_type" body) as [e1 | ty] eqn:T;
    [destruct (required_str "target_id" body), (optional_str "reason" None body);
     discriminate |].
  destruct (required_str "target_id" body) as [e2 | ti] eqn:I;
    [destruct (optional_str "reason" None body); discriminate |].
  destruct (optional_str "reason" None body) as [e3 | rs]; [discriminate |].
  apply required_str_inr in T, I.
  unfold report_item, bind, ret.
  match goal with
  | |- context [create_document ?c ?d ?w0] =>
      destruct (mem_create_cases c d w0)
        as [(F0 & e & w' & E1 & D1) | (F0 & id & w' & E1 & D1 & _)];
      rewrite E1
  end; [discriminate |].
  intros E. injection E as <- <-. split; [reflexivity |].
  eexists. split; [exact D1 |].
  split; [rewrite stamp_lookup, T by discriminate; reflexivity |].
  split; [rewrite stamp_lookup, I by discriminate; reflexivity |].
  intros c f Hc. rewrite D1. apply select_other_collection. congruence.
Qed.

Lemma report_changes_nothing_else_witness :
  exists r w1,
    post_api_community_report report_body (mem_world MemStore.empty) = (Ok200 r, w1) /\
    r !! "queued"%string = Some (VBool true).
Proof.
  assert (E : exists r w1,
             post_api_community_report report_body (mem_world MemStore.empty)
             = (Ok200 r, w1)) by (apply route_ok_intro; vm_compute; reflexivity).
  destruct E as (r & w1 & E). exists r, w1. split; [exact E |].
  exact (proj1 (report_changes_nothing_else _ _ _ _ E)).
Defined.

(** ** The mood routes *)



Lemma mem_get_cases (c : string) (f : gmap string value) (limit : nat)
    (w : World MemStore.t) :
  fails_at 0 (store w) = false ->
  exists w',
    get_documents c f limit w
    = (Returned (firstn limit (MemStore.select c f (MemStore.docs (store w)))), w') /\
    MemStore.docs (store w') = MemStore.docs (store w).
Proof.
  unfold get_documents, fails_at. cbn [db_get_documents mem_store_adapter].
  unfold MemStore.get.
  destruct (MemStore.faults (store w)) as [| [] later]; cbn [nth];
    intros F; try discriminate F; eexists; split; reflexivity.
Qed.

Lemma mem_get_docs (c : string) (f : gmap string value) (limit : nat)
    (w w' : World MemStore.t) (r : outcome (list (gmap string value))) :
  get_documents c f limit w = (r, w') ->
  MemStore.docs (store w') = MemStore.docs (store w).
Proof.
  unfold get_documents. cbn [db_get_documents mem_store_adapter].
  unfold MemStore.get.
  destruct (MemStore.faults (store w)) as [| [] later];
    intros E; injection E as _ <-; reflexivity.
Qed.

Lemma last_within_limit {A : Type} (limit : nat) (l : list A) (x : A) :
  (length l < limit)%nat -> firstn limit (l ++ [x]) = l ++ [x].
Proof. intros H. apply firstn_all2. rewrite length_app. simpl. lia. Qed.

(** X13.  [GET /api/wellness/mood/{session_id}] returns at most 100
    documents, all of them mood entries of the store whose [session_id] is the
    one asked for; it stores nothing. *)
Theorem get_mood_only_own_session (session_id : list N)
    (w w' : World MemStore.t) (items : list (gmap string value)) :
  get_api_wellness_mood session_id w = (Ok200 items, w') ->
  (length items <= 100)%nat /\
  (forall p, In p items ->
     In ("moodentry"%string, p) (MemStore.docs (store w)) /\
     p !! "session_id"%string = Some (VStr session_id)) /\
  MemStore.docs (store w') = MemStore.docs (store w).
Proof.
  unfold get_api_wellness_mood, route, get_mood, bind, ret.
  destruct (get_documents _ _ _ w) as [[found | e] w1] eqn:G; [| discriminate].
  intros E. injection E as <- <-.
  pose proof (mem_get_docs _ _ _ _ _ _ G) as D.
  apply mem_get_returned in G. subst found. split; [| split].
  - rewrite length_firstn. lia.
  - intros p H. apply firstn_In, select_In in H as [H1 H2].
    split; [assumption | now apply matches_single].
  - exact D.
Qed.

Lemma get_mood_only_own_session_witness :
  exists items w',
    get_api_wellness_mood (py "s1")
      (snd (post_api_wellness_mood (mood_body 3) (mem_world MemStore.empty)))
    = (Ok200 items, w') /\
    (length items <= 100)%nat /\
    forall p, In p items -> p !! "session_id"%string = Some (VStr (py "s1")).
Proof.
  assert (E : exists items w',
             get_api_wellness_mood (py "s1")
               (snd (post_api_wellness_mood (mood_body 3) (mem_world MemStore.empty)))
             = (Ok200 items, w')) by (apply route_ok_intro; vm_compute; reflexivity).
  destruct E as (items & w' & E). exists items, w'. split; [exact E |].
  destruct (get_mood_only_own_session _ _ _ _ E) as (L & P & _).
  split; [exact L |]. intros p H. exact (proj2 (P p H)).
Defined.

Section AnyOrder.

Variable arrange : list (gmap string value) -> list (gmap string value).
Hypothesis arrange_permutes : forall l, Permutation (arrange l) l.




End AnyOrder.


(** X15.  What [add_mood] hands to the store is a valid [MoodEntry] of
    [schemas.py] exactly when the mood lies between 1 and 5. *)
Theorem MoodReq_dump_conforms_iff (m : MoodReq.t) :
  (exists e, MoodEntry.validate (MoodReq.model_dump m) = inr e) <->
  1 <= MoodReq.mood m <= 5.
Proof.
  unfold MoodEntry.validate.
  change (required_str "session_id" (MoodReq.model_dump m))
    with (@inr field_error _ (MoodReq.session_id m)).
  assert (N : optional_str "note" None (MoodReq.model_dump m)
              = inr (MoodReq.note m)).
  { unfold optional_str.
    change (MoodReq.model_dump m !! "note"%string)
      with (Some (of_optional_str (MoodReq.note m))).
    now destruct (MoodReq.note m). }
  rewrite N. unfold required_int_ge_le.
  change (required_int "mood" (MoodReq.model_dump m))
    with (@inr field_error _ (MoodReq.mood m)).
  cbv iota beta.
  destruct (Z.ltb_spec (MoodReq.mood m) 1) as [H1 | H1].
  { split; [intros [e E]; discriminate E | lia]. }
  destruct (Z.ltb_spec 5 (MoodReq.mood m)) as [H2 | H2].
  { split; [intros [e E]; discriminate E | lia]. }
  split; [lia | intros _; eexists; reflexivity].
Qed.

(** X16.  Built through the schema [CounselorRequest] of [schemas.py], the
    dump of any counselor request gets the default status "queued": the field
    the route leaves out of the stored document. *)
Theorem CounselorReq_dump_default_status (r : CounselorReq.t) :
  CounselorReq.model_dump r !! "status"%string = None /\
  exists c,
    CounselorRequest.validate (CounselorReq.model_dump r) = inr c /\
    CounselorRequest.session_id c = CounselorReq.session_id r /\
    CounselorRequest.topic c = CounselorReq.topic r /\
    CounselorRequest.status c = py "queued".
Proof.
  split; [reflexivity |].
  unfold CounselorRequest.validate.
  change (required_str "session_id" (CounselorReq.model_dump r))
    with (@inr field_error _ (CounselorReq.session_id r)).
  change (defaulted_str "status" (py "queued") (CounselorReq.model_dump r))
    with (@inr field_error _ (py "queued")).
  assert (T : optional_str "topic" None (CounselorReq.model_dump r)
              = inr (CounselorReq.topic r)).
  { unfold optional_str.
    change (CounselorReq.model_dump r !! "topic"%string)
      with (Some (of_optional_str (CounselorReq.topic r))).
    now destruct (CounselorReq.topic r). }
  rewrite T. eexists. repeat split.
Qed.

(** ** The diagnostic route *)

(** X17.  [GET /test] reports at most ten collection names: the first ten
    the store lists, in order.  It reports names, and says
    "Connected & Working", only when the listing succeeded. *)
Theorem test_database_collections (env_url env_name : option (list N))
    (db : option listing) :
  let r := test_database env_url env_name db in
  (length (collections r) <= 10)%nat /\
  (forall names, db = Some (Listed names) ->
     collections r = firstn 10 names /\
     database r = CHECK_MARK ++ py " Connected & Working") /\
  (collections r <> [] \/ database r = CHECK_MARK ++ py " Connected & Working" ->
   exists names, db = Some (Listed names)).
Proof.
  cbv zeta. destruct db as [[names | message] |]; cbn.
  - split; [rewrite length_firstn; lia |].
    split; [intros ? [= <-]; split; reflexivity |].
    intros _. now exists names.
  - split; [lia |]. split; [discriminate |].
    intros [H | H]; [congruence | discriminate H].
  - split; [lia |]. split; [discriminate |].
    intros [H | H]; [congruence | discriminate H].
Qed.

(** X18.  [GET /test] reports an environment variable as set exactly when it
    holds a non-empty string: a variable set to the empty string is reported
    as not set.  The report on the variables does not depend on the store. *)
Theorem test_database_env_flags (env_url env_name : option (list N))
    (db : option listing) :
  let r := test_database env_url env_name db in
  (database_url r = CHECK_MARK ++ py " Set" <->
   exists c s, env_url = Some (c :: s)) /\
  (database_url r = CROSS_MARK ++ py " Not Set" <->
   env_url = None \/ env_url = Some []) /\
  (database_name r = CHECK_MARK ++ py " Set" <->
   exists c s, env_name = Some (c :: s)) /\
  (database_name r = CROSS_MARK ++ py " Not Set" <->
   env_name = None \/ env_name = Some []).
Proof.
  cbv zeta.
  assert (U : database_url (test_database env_url env_name db)
              = if getenv_truthy env_url then CHECK_MARK ++ py " Set"
                else CROSS_MARK ++ py " Not Set")
    by (destruct db as [[names | message] |]; reflexivity).
  assert (V : database_name (test_database env_url env_name db)
              = if getenv_truthy env_name then CHECK_MARK ++ py " Set"
                else CROSS_MARK ++ py " Not Set")
    by (destruct db as [[names | message] |]; reflexivity).
  rewrite U, V.
  repeat split;
    try (destruct env_url as [[| c s] |]; cbn; intros H;
         solve [ discriminate H | now eauto | now left | now right
               | destruct H as [H | H]; discriminate H
               | destruct H as (? & ? & H); discriminate H | reflexivity ]);
    try (destruct env_name as [[| c s] |]; cbn; intros H;
         solve [ discriminate H | now eauto | now left | now right
               | destruct H as [H | H]; discriminate H
               | destruct H as (? & ? & H); discriminate H | reflexivity ]).
Qed.

(** X19.  [GET /test] says "Connected" exactly when the store handle exists,
    also when listing the collections fails; in that case the error text is
    reported cut to its first 80 characters and no collection is listed. *)
Theorem test_database_connection (env_url env_name : option (list N))
    (db : option listing) :
  let r := test_database env_url env_name db in
  (connection_status r = py "Connected" <-> db <> None) /\
  (connection_status r = py "Not Connected" <-> db = None) /\
  (forall message, db = Some (ListingFailed message) ->
     database r
     = WARNING_SIGN ++ py " Connected but Error: " ++ firstn 80 message /\
     (length (database r) <= 104)%nat /\
     collections r = []).
Proof.
  cbv zeta. destruct db as [[names | message] |]; cbn [test_database].
  - split; [split; [discriminate | reflexivity] |].
    split; [split; discriminate | discriminate].
  - split; [split; [discriminate | reflexivity] |].
    split; [split; discriminate |].
    intros ? [= <-]. split; [reflexivity |]. split; [| reflexivity].
    cbn [database set_database]. rewrite !length_app, length_firstn.
    change (length WARNING_SIGN) with 2%nat.
    change (length (py " Connected but Error: ")) with 22%nat. lia.
  - split; [split; [discriminate | congruence] |].
    split; [split; reflexivity | discriminate].
Qed.
